(** * Tarot bot: deck, spreads, readings and per-user counters

    A shallow embedding of [tarot_deck.py], [tarot_bot.py] and [database.py].

    Python values are modelled as follows.
    - [str] is a sequence of Unicode code points ([pystr]); [len], slicing
      and concatenation act on code points, not on bytes.
    - a [dict] with a fixed set of string keys built by a literal is an
      association list in the order of the literal.
    - the [users] table (primary key [user_id]) is a [gmap]; the [readings]
      table is a list in insertion order.
    - exceptions are values of [Exn]; code that can raise returns [Res]. *)

From Stdlib Require Import ZArith String Ascii DecimalString.
From stdpp Require Import gmap list.

(** ** Python strings *)

Module PyStr.

(** A code point. *)
Definition char := N.
Definition pystr := list char.

(** Decoding of a UTF-8 byte sequence; only used to write string literals of
    the source in this file. *)
Fixpoint utf8_decode (bs : list N) : pystr :=
  match bs with
  | [] => []
  | b0 :: t0 =>
      if (b0 <? 128)%N then b0 :: utf8_decode t0
      else match t0 with
           | [] => [b0]
           | b1 :: t1 =>
               if (b0 <? 224)%N
               then ((b0 - 192) * 64 + (b1 - 128))%N :: utf8_decode t1
               else match t1 with
                    | [] => [b0; b1]
                    | b2 :: t2 =>
                        if (b0 <? 240)%N
                        then ((b0 - 224) * 4096 + (b1 - 128) * 64 + (b2 - 128))%N
                               :: utf8_decode t2
                        else match t2 with
                             | [] => [b0; b1; b2]
                             | b3 :: t3 =>
                                 ((b0 - 240) * 262144 + (b1 - 128) * 4096
                                  + (b2 - 128) * 64 + (b3 - 128))%N
                                   :: utf8_decode t3
                             end
                    end
           end
  end.

Fixpoint bytes_of (s : string) : list N :=
  match s with
  | EmptyString => []
  | String a s' => N_of_ascii a :: bytes_of s'
  end.

(** [u "text"] is the Python string literal ["text"]. *)
Definition u (s : string) : pystr := utf8_decode (bytes_of s).

(** [len(s)] *)
Definition len (s : pystr) : Z := Z.of_nat (length s).

(** [s[:k]] with Python's treatment of a negative bound. *)
Definition slice_to (s : pystr) (k : Z) : pystr :=
  if (k <? 0)%Z then take (Z.to_nat (Z.max 0 (len s + k))) s
  else take (Z.to_nat k) s.

(** [sep.join(parts)] *)
Fixpoint join (sep : pystr) (parts : list pystr) : pystr :=
  match parts with
  | [] => []
  | [p] => p
  | p :: rest => p ++ sep ++ join sep rest
  end.

(** [str(i)] for a non-negative [int]. *)
Definition str_of_nat (i : nat) : pystr :=
  bytes_of (NilZero.string_of_uint (Nat.to_uint i)).

End PyStr.
Import PyStr.

Arguments u : simpl never.
Arguments str_of_nat : simpl never.

(** ** Exceptions *)

Inductive Exn :=
| KeyError | ValueError | TypeError | IndexError | JSONDecodeError | OSError
| InsufficientCardsError | OverflowError | UnicodeEncodeError.

Inductive Res (A : Type) :=
| Ok (a : A)
| Raise (e : Exn).
Arguments Ok {A} a.
Arguments Raise {A} e.

(** * tarot_deck.py *)

Module Deck.

(** [class CardType(Enum)] *)
Inductive CardType := MAJOR | CUPS | SWORDS | WANDS | PENTACLES.

(** [CardType.value] *)
Definition value (t : CardType) : pystr :=
  match t with
  | MAJOR => u "Старшие Арканы"
  | CUPS => u "Кубки"
  | SWORDS => u "Мечи"
  | WANDS => u "Жезлы"
  | PENTACLES => u "Пентакли"
  end.

(** [CardType(v)]: lookup of a member by value; [ValueError] when no member
    has that value. *)
Definition CardType_of_value (v : pystr) : Res CardType :=
  if decide (v = value MAJOR) then Ok MAJOR
  else if decide (v = value CUPS) then Ok CUPS
  else if decide (v = value SWORDS) then Ok SWORDS
  else if decide (v = value WANDS) then Ok WANDS
  else if decide (v = value PENTACLES) then Ok PENTACLES
  else Raise ValueError.

(** [@dataclass class TarotCard].  The attribute [keywords] is declared
    [List[str] = None], so it can hold [None]. *)
Record TarotCard := mkTarotCard {
  name : pystr;
  upright : pystr;
  reversed : pystr;
  card_type : CardType;
  number : option Z;
  keywords : option (list pystr);
  element : pystr;
  astro : pystr
}.

(** [TarotCard.__post_init__] *)
Definition post_init (self : TarotCard) : TarotCard :=
  match keywords self with
  | None =>
      mkTarotCard (name self) (upright self) (reversed self) (card_type self)
                  (number self) (Some []) (element self) (astro self)
  | Some _ => self
  end.

(** [TarotCard(name, upright, reversed, card_type, number, keywords, element,
    astro)]: the generated [__init__] stores the arguments and then calls
    [__post_init__].  An omitted [number] or [keywords] is the default [None],
    an omitted [element] or [astro] is the default [""]. *)
Definition TarotCard_init (name upright reversed : pystr) (card_type : CardType)
    (number : option Z) (keywords : option (list pystr)) (element astro : pystr)
  : TarotCard :=
  post_init (mkTarotCard name upright reversed card_type number keywords element astro).

(** [TarotCard.get_meaning] *)
Definition get_meaning (self : TarotCard) (is_reversed : bool) : pystr :=
  if is_reversed then reversed self else upright self.

(** [TarotCard.get_short_meaning] *)
Definition get_short_meaning (self : TarotCard) (is_reversed : bool) (max_length : Z) : pystr :=
  let meaning := get_meaning self is_reversed in
  if (len meaning >? max_length)%Z then slice_to meaning max_length ++ u "..."
  else meaning.

Definition nl : pystr := [10%N].

(** [TarotCard.get_description] *)
Definition get_description (self : TarotCard) (is_reversed : bool) : pystr :=
  let position := if is_reversed then u "🔻 Перевернутая" else u "🔺 Прямая" in
  let description := u "🎴 *" ++ name self ++ u "*" ++ nl in
  let description := description ++ u "📊 *Тип:* " ++ value (card_type self) ++ nl in
  let description := description ++ u "⚖️ *Положение:* " ++ position ++ nl ++ nl in
  let description :=
    description ++ u "📖 *Значение:*" ++ nl ++ get_meaning self is_reversed ++ nl ++ nl in
  let description :=
    match keywords self with
    | Some (k :: ks) =>
        description ++ u "🏷️ *Ключевые слова:* " ++ join (u ", ") (k :: ks) ++ nl
    | _ => description
    end in
  let description :=
    match element self with
    | [] => description
    | _ => description ++ u "🌿 *Стихия:* " ++ element self ++ nl
    end in
  let description :=
    match astro self with
    | [] => description
    | _ => description ++ u "⭐ *Астрология:* " ++ astro self ++ nl
    end in
  description.

(** [TarotCard.get_short_description]; [get_short_meaning] is called with its
    default [max_length = 100]. *)
Definition get_short_description (self : TarotCard) (is_reversed : bool) : pystr :=
  name self ++ u " (" ++ (if is_reversed then u "🔻" else u "🔺") ++ u ") - "
    ++ get_short_meaning self is_reversed 100.

(** A [dict] with string keys and string values, in insertion order. *)
Definition pydict := list (pystr * pystr).

(** [d.get(k)] *)
Fixpoint dict_get (k : pystr) (d : pydict) : option pystr :=
  match d with
  | [] => None
  | (k', v) :: d' => if decide (k' = k) then Some v else dict_get k d'
  end.

(** [TarotCard.to_dict] *)
Definition to_dict (self : TarotCard) (is_reversed : bool) : pydict :=
  [ (u "name", name self);
    (u "type", value (card_type self));
    (u "position", if is_reversed then u "reversed" else u "upright");
    (u "meaning", get_meaning self is_reversed);
    (u "short_meaning", get_short_meaning self is_reversed 100) ].

(** The lists of [_create_basic_deck]. *)
Definition major_arcana : list TarotCard :=
  [ TarotCard_init (u "0. Шут") (u "Начало, свобода, невинность") (u "Безрассудство, риск")
      MAJOR (Some 0%Z) (Some [u "начало"; u "свобода"]) (u "Воздух") [];
    TarotCard_init (u "I. Маг") (u "Воля, мастерство, концентрация") (u "Манипуляции, слабость")
      MAJOR (Some 1%Z) (Some [u "воля"; u "мастерство"]) (u "Меркурий") [];
    TarotCard_init (u "II. Верховная Жрица") (u "Интуиция, тайное знание") (u "Скрытые мотивы")
      MAJOR (Some 2%Z) (Some [u "интуиция"; u "тайны"]) (u "Луна") [];
    TarotCard_init (u "III. Императрица") (u "Изобилие, творчество") (u "Зависимость")
      MAJOR (Some 3%Z) (Some [u "изобилие"; u "творчество"]) (u "Венера") [];
    TarotCard_init (u "IV. Император") (u "Власть, структура") (u "Тирания")
      MAJOR (Some 4%Z) (Some [u "власть"; u "структура"]) (u "Марс") [] ].

Definition cups_cards : list TarotCard :=
  [ TarotCard_init (u "Туз Кубков") (u "Новые чувства, любовь") (u "Эмоциональная пустота")
      CUPS (Some 1%Z) (Some [u "любовь"; u "чувства"]) (u "Вода") [];
    TarotCard_init (u "Двойка Кубков") (u "Единство, гармония") (u "Разрыв")
      CUPS (Some 2%Z) (Some [u "партнерство"; u "гармония"]) (u "Вода") [] ].

Definition swords_cards : list TarotCard :=
  [ TarotCard_init (u "Туз Мечей") (u "Ясность, правда") (u "Путаница")
      SWORDS (Some 1%Z) (Some [u "ясность"; u "правда"]) (u "Воздух") [];
    TarotCard_init (u "Двойка Мечей") (u "Выбор, баланс") (u "Неуверенность")
      SWORDS (Some 2%Z) (Some [u "выбор"; u "баланс"]) (u "Воздух") [] ].

(** *** The deck file

    [data/tarot_deck.json] as [json.load] returns it.  An object of the list
    is modelled by the fields it has: [None] is an absent key (for [number]
    and [keywords] also the JSON [null], which is the same default); present
    fields carry values of the types the dataclass annotates; [r_extra] lists
    the keys that are no field of [TarotCard]. *)

Record RawCard := mkRawCard {
  r_name : option pystr;
  r_upright : option pystr;
  r_reversed : option pystr;
  r_card_type : option pystr;
  r_number : option Z;
  r_keywords : option (list pystr);
  r_element : option pystr;
  r_astro : option pystr;
  r_extra : list pystr
}.

Inductive JItem :=
| JObject (r : RawCard)
| JOther.                      (* an element of the list that is no object *)

Inductive DeckFile :=
| Missing                      (* [deck_file.exists()] is false *)
| Broken (e : Exn)             (* [open], [json.load] or [iter] raises *)
| Records (rs : list JItem).   (* [json.load] returns a list *)

(** Lines 99-100: the body of the loop for one element. *)
Definition parse_card (card_data : JItem) : Res TarotCard :=
  match card_data with
  | JOther => Raise TypeError
  | JObject r =>
      match r_card_type r with
      | None => Raise KeyError
      | Some v =>
          match CardType_of_value v with
          | Raise e => Raise e
          | Ok t =>
              match r_extra r, r_name r, r_upright r, r_reversed r with
              | [], Some n, Some up, Some rev =>
                  Ok (TarotCard_init n up rev t (r_number r) (r_keywords r)
                        (default [] (r_element r)) (default [] (r_astro r)))
              | _, _, _, _ => Raise TypeError
              end
          end
      end
  end.

(** Lines 98-100: every parsed card is appended to [self.cards] at once, so an
    exception leaves the cards parsed before it in the list. *)
Fixpoint load_records (rs : list JItem) (cards : list TarotCard)
  : Res unit * list TarotCard :=
  match rs with
  | [] => (Ok tt, cards)
  | card_data :: rs' =>
      match parse_card card_data with
      | Ok c => load_records rs' (cards ++ [c])
      | Raise e => (Raise e, cards)
      end
  end.

(** The lines [load_deck] prints. *)
Inductive Printed :=
| LoadedFromFile (n : nat)
| LoadError (e : Exn)
| BasicDeckCreated (n : nat).

Section LoadDeck.

(** The cards of [_create_basic_deck]: its lists of wands and pentacles and
    the statement that stores the deck are not in the source. *)
Variable builtin : list TarotCard.

(** Modelled from the spec: the end of [_create_basic_deck] (the statement
    that stores the built-in cards in [self.cards]) is missing from the
    source.  The spec has the loader "fall back to a built-in minimal
    catalog" and limits the deck's mutability to "reload (replace entire
    contents)": the built-in cards replace whatever [self.cards] holds. *)
Definition create_basic_deck (cards : list TarotCard) : list TarotCard := builtin.

(** [TarotDeck.load_deck], on the value [cards] of [self.cards]; returns the
    new [self.cards] and what was printed. *)
Definition load_deck (file : DeckFile) (cards : list TarotCard)
  : list TarotCard * list Printed :=
  let fallback (cards : list TarotCard) (out : list Printed) :=
    let cards := create_basic_deck cards in
    (cards, out ++ [BasicDeckCreated (length cards)]) in
  match file with
  | Missing => fallback cards []
  | Broken e => fallback cards [LoadError e]
  | Records rs =>
      match load_records rs cards with
      | (Ok _, cards) => (cards, [LoadedFromFile (length cards)])
      | (Raise e, cards) => fallback cards [LoadError e]
      end
  end.

(** [TarotDeck.__init__] *)
Definition TarotDeck_init (file : DeckFile) : list TarotCard * list Printed :=
  load_deck file [].

End LoadDeck.

Section LoadDeckVia.

(** [_create_basic_deck], as what a call of it makes of [self.cards]: its
    end is not in the source. *)
Variable create : list TarotCard -> list TarotCard.

(** [TarotDeck.load_deck] over any [_create_basic_deck]. *)
Definition load_deck_via (file : DeckFile) (cards : list TarotCard)
  : list TarotCard * list Printed :=
  let fallback (cards : list TarotCard) (out : list Printed) :=
    let cards := create cards in
    (cards, out ++ [BasicDeckCreated (length cards)]) in
  match file with
  | Missing => fallback cards []
  | Broken e => fallback cards [LoadError e]
  | Records rs =>
      match load_records rs cards with
      | (Ok _, cards) => (cards, [LoadedFromFile (length cards)])
      | (Raise e, cards) => fallback cards [LoadError e]
      end
  end.

End LoadDeckVia.


(** *** Drawing *)

(** The random source: the raw values the generator yields, in order; an
    exhausted source yields zeros. *)
Definition Rng := list nat.

(** A value in [0, k). *)
Definition randbelow (k : nat) (g : Rng) : nat * Rng :=
  match g with
  | [] => (0, [])
  | x :: g' => (x `mod` k, g')
  end.

(** A coin flip. *)
Definition coin (g : Rng) : bool * Rng :=
  match g with
  | [] => (false, [])
  | x :: g' => (Nat.odd x, g')
  end.

(** A drawn card: [(card, is_reversed)]. *)
Definition DrawnCard : Type := TarotCard * bool.

(** Modelled from the spec: [TarotDeck.draw_cards] is missing from the
    source.  "Sampling is without replacement ... equivalent to a random
    permutation of the deck, truncated to n": [n] times, a card is picked at
    a random index of the pool and leaves the pool. *)
Fixpoint sample (pool : list TarotCard) (n : nat) (g : Rng) : list TarotCard * Rng :=
  match n with
  | 0 => ([], g)
  | S n' =>
      let (i, g1) := randbelow (length pool) g in
      match pool !! i with
      | None => ([], g1)
      | Some c =>
          let (rest, g2) := sample (delete i pool) n' g1 in
          (c :: rest, g2)
      end
  end.

(** Modelled from the spec: "Orientation for each drawn card is an
    independent fair coin flip, computed after card selection". *)
Fixpoint orient (sel : list TarotCard) (g : Rng) : list DrawnCard * Rng :=
  match sel with
  | [] => ([], g)
  | c :: sel' =>
      let (r, g1) := coin g in
      let (rest, g2) := orient sel' g1 in
      ((c, r) :: rest, g2)
  end.

(** Modelled from the spec: [TarotDeck.draw_cards] is missing from the
    source.  "Fails with InsufficientCardsError if n exceeds the number of
    distinct cards currently loaded - this must be checked before any
    sampling occurs"; the stored cards are not changed by a draw. *)
Definition draw_cards (cards : list TarotCard) (n : nat) (g : Rng)
  : Res (list DrawnCard) * Rng :=
  if decide (length cards < n) then (Raise InsufficientCardsError, g)
  else
    let (sel, g1) := sample cards n g in
    let (drawn, g2) := orient sel g1 in
    (Ok drawn, g2).

End Deck.

(** * database.py *)

Module Db.

(** A value of an [INTEGER] column.  SQLite adds 64-bit signed integers and
    switches to a floating-point result when the sum leaves their range; the
    floating-point values are not tracked. *)
Inductive SqlNum :=
| SqlInt (z : Z)
| SqlReal.

Definition INT64_MAX : Z := 9223372036854775807.

(** [c + 1] in SQL. *)
Definition sql_incr (c : SqlNum) : SqlNum :=
  match c with
  | SqlInt z => if (z <? INT64_MAX)%Z then SqlInt (z + 1) else SqlReal
  | SqlReal => SqlReal
  end.

(** A row of [users]; the key [user_id] is the key of the map. *)
Record UserRow := mkUserRow {
  username : option pystr;
  first_name : option pystr;
  last_name : option pystr;
  language_code : option pystr;
  is_bot : bool;
  created_at : Z;
  last_activity : option Z;
  cards_drawn : SqlNum;
  readings_count : SqlNum
}.

(** A row of [readings]. *)
Record ReadingRow := mkReadingRow {
  id : Z;
  user_id : Z;
  spread_type : pystr;
  cards : pystr;
  reading_created_at : Z
}.

Record Database := mkDatabase {
  users : gmap Z UserRow;
  readings : list ReadingRow;
  last_id : Z                    (* the [AUTOINCREMENT] counter of [readings] *)
}.

(** [types.User], the fields [add_user] reads. *)
Record User := mkUser {
  u_id : Z;
  u_username : option pystr;
  u_first_name : pystr;
  u_last_name : option pystr;
  u_language_code : option pystr;
  u_is_bot : bool
}.

(** [Database.init_db] on a new file. *)
Definition init_db : Database := mkDatabase ∅ [] 0.

Definition INT64_MIN : Z := -9223372036854775808.

(** An [int] that [sqlite3] can bind as a parameter: a signed 64-bit integer
    ([OverflowError] otherwise). *)
Definition bindable_int (z : Z) : bool :=
  (INT64_MIN <=? z)%Z && (z <=? INT64_MAX)%Z.

(** A [str] that [sqlite3] can bind as a parameter: one that encodes as UTF-8,
    so without a surrogate code point ([UnicodeEncodeError] otherwise). *)
Definition bindable_text (s : pystr) : bool :=
  forallb (fun c => negb ((55296 <=? c)%N && (c <=? 57343)%N)) s.

(** [None] binds as [NULL]. *)
Definition bindable_opt (o : option pystr) : bool :=
  match o with
  | None => true
  | Some s => bindable_text s
  end.

(** The texts of the parameters of [add_user] bind. *)
Definition bindable_texts (user : User) : bool :=
  bindable_opt (u_username user) && bindable_text (u_first_name user)
  && bindable_opt (u_last_name user) && bindable_opt (u_language_code user).

(** [Database.add_user]: [INSERT OR IGNORE].  The parameters are bound in the
    order of the tuple, [user.id] first; when one does not bind, the
    statement does not run.  [now] is [datetime.now()], the value of
    [last_activity]; the columns that are not listed take their defaults, and
    [current_timestamp] is SQLite's [CURRENT_TIMESTAMP], the default of
    [created_at]. *)
Definition add_user (user : User) (now current_timestamp : Z) (d : Database)
  : Res unit * Database :=
  if negb (bindable_int (u_id user)) then (Raise OverflowError, d)
  else if negb (bindable_texts user) then (Raise UnicodeEncodeError, d)
  else
    match users d !! u_id user with
    | Some _ => (Ok tt, d)
    | None =>
        (Ok tt,
         mkDatabase
           (<[u_id user := mkUserRow (u_username user) (Some (u_first_name user))
                             (u_last_name user) (u_language_code user) (u_is_bot user)
                             current_timestamp (Some now) (SqlInt 0) (SqlInt 0)]> (users d))
           (readings d) (last_id d))
    end.

(** The [SET] clause of [update_user_activity]. *)
Definition touch (now : Z) (r : UserRow) : UserRow :=
  mkUserRow (username r) (first_name r) (last_name r) (language_code r) (is_bot r)
            (created_at r) (Some now) (sql_incr (cards_drawn r)) (sql_incr (readings_count r)).

(** [Database.update_user_activity]: [UPDATE users SET ... WHERE user_id = ?]. *)
Definition update_user_activity (user_id : Z) (now : Z) (d : Database) : Database :=
  mkDatabase (alter (touch now) user_id (users d)) (readings d) (last_id d).

(** [json.dumps(cards, ensure_ascii=False)] on the value [handle_quick_spread]
    passes: a list of [(TarotCard, bool)] tuples.  The encoder writes lists,
    tuples and booleans and has no encoding for an instance of the dataclass
    [TarotCard]: it raises [TypeError] when it reaches the first card. *)
Definition json_dumps (cards : list Deck.DrawnCard) : Res pystr :=
  match cards with
  | [] => Ok (u "[]")
  | _ :: _ => Raise TypeError
  end.

(** [Database.save_reading]; returns [cursor.lastrowid].  The arguments of
    [execute] are evaluated first: when [json.dumps] raises, no statement
    runs. *)
Definition save_reading (user_id : Z) (spread_type : pystr) (cards : list Deck.DrawnCard)
    (now : Z) (d : Database) : Res Z * Database :=
  match json_dumps cards with
  | Raise e => (Raise e, d)
  | Ok text =>
      let rowid := (last_id d + 1)%Z in
      (Ok rowid,
       mkDatabase (users d)
                  (readings d ++ [mkReadingRow rowid user_id spread_type text now])
                  rowid)
  end.

(** [Database.get_user_stats] *)
Definition get_user_stats (user_id : Z) (d : Database) : option UserRow :=
  users d !! user_id.

End Db.

(** * tarot_bot.py *)

Module Bot.

(** The [dict] that [TarotSpreads.get_spread_info] returns.  The keys
    ['name'], ['cards'], ['type'] and ['description'] are read with
    [spread_info[...]]; ['positions'] is read with [.get] and may be absent. *)
Record SpreadInfo := mkSpreadInfo {
  si_name : pystr;
  si_cards : nat;
  si_type : pystr;
  si_description : pystr;
  si_positions : option (list pystr)
}.

(** [TarotBot], the attributes [handle_quick_spread] reads: the cards of
    [self.deck] and the table of [self.spreads]. *)
Record TarotBot := mkTarotBot {
  deck : list Deck.TarotCard;
  spreads : gmap pystr SpreadInfo
}.

(** Modelled from the spec: [tarot_spreads.py] is missing from the source.
    "lookup(identifier) -> SpreadDefinition or NotFound": a lookup in the
    table; [None] is the value the caller tests with [if not spread_info]. *)
Definition get_spread_info (table : gmap pystr SpreadInfo) (spread_type : pystr)
  : option SpreadInfo :=
  table !! spread_type.

(** [message]: [message.from_user] and [message.chat.id]. *)
Record Message := mkMessage {
  from_user : Db.User;
  chat_id : Z
}.

(** *** Effects

    What a handler acts on: the database, the random source and the clock;
    [trace] records the calls that leave the handler, in order, at the moment
    of the call.  Logging is not modelled. *)

Inductive Event :=
| DrawCards (n : nat)
| SaveReading (user_id : Z) (spread_type : pystr) (cards : list Deck.DrawnCard)
| UpdateUserActivity (user_id : Z)
| SendMessage (chat_id : Z) (text : pystr).

Record World := mkWorld {
  db : Db.Database;
  rng : Deck.Rng;
  now : Z;
  trace : list Event
}.

Definition M (A : Type) : Type := World -> Res A * World.

Definition ret {A} (a : A) : M A := fun w => (Ok a, w).

Definition bind {A B} (m : M A) (k : A -> M B) : M B :=
  fun w =>
    match m w with
    | (Ok a, w') => k a w'
    | (Raise e, w') => (Raise e, w')
    end.

Definition lift {A} (r : Res A) : M A := fun w => (r, w).

Declare Scope bot_scope.
Delimit Scope bot_scope with bot.
Notation "x <- m ;; k" := (bind m (fun x => k))
  (at level 100, m at next level, right associativity) : bot_scope.
Notation "m ;;; k" := (bind m (fun _ => k))
  (at level 100, right associativity) : bot_scope.

Definition emit (e : Event) (w : World) : World :=
  mkWorld (db w) (rng w) (now w) (trace w ++ [e]).

(** [self.deck.draw_cards(n)] *)
Definition call_draw_cards (cards : list Deck.TarotCard) (n : nat) : M (list Deck.DrawnCard) :=
  fun w =>
    let w := emit (DrawCards n) w in
    let (r, g) := Deck.draw_cards cards n (rng w) in
    (r, mkWorld (db w) g (now w) (trace w)).

(** [self.db.save_reading(user_id, spread_type, cards)] *)
Definition call_save_reading (user_id : Z) (spread_type : pystr)
    (cards : list Deck.DrawnCard) : M Z :=
  fun w =>
    let w := emit (SaveReading user_id spread_type cards) w in
    let (r, d) := Db.save_reading user_id spread_type cards (now w) (db w) in
    (r, mkWorld d (rng w) (now w) (trace w)).

(** [self.db.update_user_activity(user_id)] *)
Definition call_update_user_activity (user_id : Z) : M unit :=
  fun w =>
    let w := emit (UpdateUserActivity user_id) w in
    (Ok tt, mkWorld (Db.update_user_activity user_id (now w) (db w)) (rng w) (now w) (trace w)).

(** [self.bot.send_message(chat_id, text)] *)
Definition send_message (chat_id : Z) (text : pystr) : M unit :=
  fun w => (Ok tt, emit (SendMessage chat_id text) w).

(** *** Rendering *)

(** [enumerate(l, start)] *)
Fixpoint enumerate {A} (start : nat) (l : list A) : list (nat * A) :=
  match l with
  | [] => []
  | x :: l' => (start, x) :: enumerate (S start) l'
  end.

(** [positions[i-1] if i <= len(positions) else f"Карта {i}"], for the [i >= 1]
    that [enumerate(cards_data, 1)] yields. *)
Definition position_label (positions : list pystr) (i : nat) : pystr :=
  if bool_decide (i <= length positions)
  then default [] (positions !! (i - 1))
  else u "Карта " ++ str_of_nat i.

Definition nl := Deck.nl.

(** [TarotBot.format_spread_response] *)
Definition format_spread_response (spread_info : SpreadInfo)
    (cards_data : list Deck.DrawnCard) (user_name : pystr) : Res pystr :=
  let response :=
    u "✨ *" ++ si_name spread_info ++ u " для " ++ user_name ++ u "* ✨" ++ nl ++ nl in
  if decide (si_type spread_info = u "daily") then
    match cards_data with
    | [] => Raise IndexError
    | (card, is_reversed) :: _ =>
        let response := response ++ Deck.get_description card is_reversed in
        Ok (response ++ nl ++ nl ++ u "🌅 *Совет на день:* Прислушайтесь к интуиции!")
    end
  else if decide (si_type spread_info = u "three_cards") then
    let positions :=
      default [u "Прошлое"; u "Настоящее"; u "Будущее"] (si_positions spread_info) in
    let response := response ++ u "*" ++ si_description spread_info ++ u "*" ++ nl ++ nl in
    Ok (fold_left
          (fun response '(i, ((card, is_reversed), position)) =>
             let response :=
               response ++ u "*" ++ str_of_nat i ++ u ". " ++ position ++ u ":*" ++ nl in
             response ++ Deck.get_description card is_reversed ++ nl ++ nl)
          (enumerate 1 (zip cards_data positions)) response)
  else
    let positions := default [] (si_positions spread_info) in
    let response := response ++ u "*" ++ si_description spread_info ++ u "*" ++ nl ++ nl in
    Ok (fold_left
          (fun response '(i, (card, is_reversed)) =>
             let position := position_label positions i in
             let response :=
               response ++ u "*" ++ str_of_nat i ++ u ". " ++ position ++ u ":*" ++ nl in
             response ++ Deck.get_short_description card is_reversed ++ nl ++ nl)
          (enumerate 1 cards_data) response).

(** *** The handler *)

Local Open Scope bot_scope.

(** Lines 173-180 of [handle_quick_spread]: the lookup of the spread and the
    draw.  [None] is the early return of the spread that was not found. *)
Definition resolve (self : TarotBot) (spread_type : pystr)
  : M (option (SpreadInfo * list Deck.DrawnCard)) :=
  match get_spread_info (spreads self) spread_type with
  | None => ret None
  | Some spread_info =>
      cards_data <- call_draw_cards (deck self) (si_cards spread_info) ;;
      ret (Some (spread_info, cards_data))
  end.

(** [TarotBot.handle_quick_spread] *)
Definition handle_quick_spread (self : TarotBot) (message : Message) (spread_type : pystr)
  : M unit :=
  let user := from_user message in
  resolved <- resolve self spread_type ;;
  match resolved with
  | None => send_message (chat_id message) (u "❌ Расклад не найден")
  | Some (spread_info, cards_data) =>
      response <- lift (format_spread_response spread_info cards_data (Db.u_first_name user)) ;;
      _ <- call_save_reading (Db.u_id user) spread_type cards_data ;;
      call_update_user_activity (Db.u_id user) ;;;
      send_message (chat_id message) response
  end.

End Bot.

(** * Sample data *)

Module Samples.
Import Deck.

(** The nine cards of [_create_basic_deck] that the source shows in full. *)
Definition nine_cards : list TarotCard := major_arcana ++ cups_cards ++ swords_cards.

Definition the_fool : TarotCard :=
  TarotCard_init (u "0. Шут") (u "Начало, свобода, невинность") (u "Безрассудство, риск")
    MAJOR (Some 0%Z) (Some [u "начало"; u "свобода"]) (u "Воздух") [].

Definition some_rng : Rng := [17; 4; 8; 3; 12; 5; 1; 0; 9; 6; 2; 7].

(** A deck file whose first object is a card and whose second object has a
    [card_type] that is no value of [CardType]. *)
Definition wheel_of_fortune : RawCard :=
  mkRawCard (Some (u "X. Колесо Фортуны")) (Some (u "Удача")) (Some (u "Неудача"))
            (Some (u "Старшие Арканы")) (Some 10%Z) None None None [].

Definition unknown_suit : RawCard :=
  mkRawCard (Some (u "Туз Монет")) (Some (u "Достаток")) (Some (u "Потери"))
            (Some (u "Монеты")) (Some 1%Z) None None None [].

Definition malformed_file : DeckFile :=
  Records [JObject wheel_of_fortune; JObject unknown_suit].

Definition three_cards_info : Bot.SpreadInfo :=
  Bot.mkSpreadInfo (u "Три карты") 3 (u "three_cards") (u "Прошлое, настоящее, будущее")
    (Some [u "Прошлое"; u "Настоящее"; u "Будущее"]).

(** A spread of the generic layout with fewer labels than cards. *)
Definition short_labels_info : Bot.SpreadInfo :=
  Bot.mkSpreadInfo (u "Расклад") 2 (u "love") (u "Любовь") (Some [u "Настоящее"]).

(** A spread of the three-card layout with fewer labels than cards. *)
Definition short_three_info : Bot.SpreadInfo :=
  Bot.mkSpreadInfo (u "Расклад") 2 (u "three_cards") (u "Любовь") (Some [u "Настоящее"]).

Definition some_bot : Bot.TarotBot :=
  Bot.mkTarotBot nine_cards
    (<[u "three_cards" := three_cards_info]> (<[u "love_spread" := short_labels_info]> ∅)).

Definition some_user : Db.User :=
  Db.mkUser 42 None (u "Анна") None None false.

Definition some_message : Bot.Message := Bot.mkMessage some_user 7.

Definition some_world : Bot.World :=
  Bot.mkWorld (Db.add_user some_user 1000 1000 Db.init_db).2 some_rng 2000 [].

End Samples.

(** * The layouts the specification describes

    Written from the specification's words, to be compared with what
    [format_spread_response] returns. *)

Module Layout.
Import Bot.

(** The title and the description, before the cards. *)
Definition heading (spread_info : SpreadInfo) (user_name : pystr) : pystr :=
  u "✨ *" ++ si_name spread_info ++ u " для " ++ user_name ++ u "* ✨" ++ nl ++ nl
    ++ u "*" ++ si_description spread_info ++ u "*" ++ nl ++ nl.

(** One card of a listing: its 1-indexed place, its position label and its
    text. *)
Definition entry (i : nat) (position : pystr) (body : pystr) : pystr :=
  u "*" ++ str_of_nat i ++ u ". " ++ position ++ u ":*" ++ nl ++ body ++ nl ++ nl.

(** The label of the card at place [i + 1]: the configured one when the list
    of labels reaches that far, the word [generic] and the place otherwise. *)
Definition label_at (generic : pystr) (positions : list pystr) (i : nat) : pystr :=
  match positions !! i with
  | Some p => p
  | None => generic ++ str_of_nat (S i)
  end.

(** Every drawn card, in draw order, under its label. *)
Definition positional_listing (generic : pystr) (spread_info : SpreadInfo)
    (cards_data : list Deck.DrawnCard) (user_name : pystr) : pystr :=
  heading spread_info user_name
    ++ mjoin (imap (fun i (d : Deck.DrawnCard) =>
                      entry (S i) (label_at generic (default [] (si_positions spread_info)) i)
                            (Deck.get_short_description d.1 d.2))
                   cards_data).

End Layout.

(** * tarot_bot.py: the handlers of [/start] and [/stats]

    Of the calls of these handlers, [trace] records the messages that are
    sent; [add_user] is seen in the database and [get_user_stats] only
    reads. *)

Module Handlers.
Import Bot.

(** [str(i)] for an [int]. *)
Definition str_of_Z (z : Z) : pystr :=
  bytes_of (NilZero.string_of_int (Z.to_int z)).

(** [TarotBot.get_welcome_text] *)
Definition get_welcome_text (user_name chat_type : pystr) : pystr :=
  if decide (chat_type = u "private") then
    u "✨ *Добро пожаловать, " ++ user_name ++ u "!* ✨" ++ nl ++ nl
      ++ u "Я — *бот для гадания на Таро* 🎴" ++ nl ++ nl
      ++ u "*⚡ Быстрые команды:*" ++ nl
      ++ u "• `/card` - Быстрая карта" ++ nl
      ++ u "• `/day` - Карта дня" ++ nl
      ++ u "• `/three` - 3 карты" ++ nl
      ++ u "• `/love` - Любовь" ++ nl
      ++ u "• `/work` - Работа" ++ nl
      ++ u "• `/money` - Финансы" ++ nl
      ++ u "• `/health` - Здоровье" ++ nl
      ++ u "• `/quick` - Все команды" ++ nl ++ nl
      ++ u "🎴 *Выберите команду из меню!*"
  else
    u "✨ *Таро-бот в вашей группе!* ✨" ++ nl ++ nl
      ++ u "Используйте команды:" ++ nl
      ++ u "• `/card` - Быстрая карта" ++ nl
      ++ u "• `/day` - Карта дня" ++ nl
      ++ u "• `/three` - 3 карты" ++ nl ++ nl
      ++ u "💡 *Пример:* `/card`".

(** [handle_start]; [chat_type] is [message.chat.type] and
    [current_timestamp] the time of the database (see [Db.add_user]).  When
    [add_user] raises, the handler ends there. *)
Definition handle_start (message : Message) (chat_type : pystr) (current_timestamp : Z)
  : M unit :=
  fun w =>
    let user := from_user message in
    match Db.add_user user (now w) current_timestamp (db w) with
    | (Raise e, d) => (Raise e, mkWorld d (rng w) (now w) (trace w))
    | (Ok _, d) =>
        let welcome_text := get_welcome_text (Db.u_first_name user) chat_type in
        send_message (chat_id message) welcome_text (mkWorld d (rng w) (now w) (trace w))
    end.

Section Stats.

(** How the values of a row read back in Python: [timestamp_text] is the text
    of a stored timestamp, [real_text] the text of a floating-point counter
    (see [Db.SqlNum]). *)
Variable timestamp_text : Z -> pystr.
Variable real_text : pystr.

(** An [f"{...}"] of a counter. *)
Definition counter_text (c : Db.SqlNum) : pystr :=
  match c with
  | Db.SqlInt z => str_of_Z z
  | Db.SqlReal => real_text
  end.

(** [handle_stats]; the [dict] of a row has all the columns, so the
    [.get] defaults are not used and [if stats] tests for the row. *)
Definition handle_stats (message : Message) : M unit :=
  fun w =>
    let user := from_user message in
    let stats := Db.get_user_stats (Db.u_id user) (db w) in
    let response :=
      match stats with
      | Some row =>
          u "📊 *Статистика*" ++ nl ++ nl
            ++ u "• Карт вытянуто: " ++ counter_text (Db.cards_drawn row) ++ nl
            ++ u "• Раскладов: " ++ counter_text (Db.readings_count row) ++ nl
            ++ u "• С вами с: " ++ slice_to (timestamp_text (Db.created_at row)) 10
      | None => u "📊 У вас пока нет статистики"
      end in
    send_message (chat_id message) response w.

End Stats.


End Handlers.

(** * Invariants of the database *)

Module Invariants.

(** In every row of [users] the two counters hold the same value. *)
Definition counters_agree (d : Db.Database) : Prop :=
  map_Forall (fun (_ : Z) row => Db.cards_drawn row = Db.readings_count row) (Db.users d).

(** The ids of the stored readings are pairwise distinct and none is above
    the [AUTOINCREMENT] counter. *)
Definition ids_fresh (d : Db.Database) : Prop :=
  NoDup (Db.id <$> Db.readings d)
  /\ Forall (fun r => (Db.id r <= Db.last_id d)%Z) (Db.readings d).

End Invariants.

(** * More sample data *)

Module MoreSamples.
Import Deck.

(** A spread that asks for no card, of the positional layout. *)
Definition no_card_info : Bot.SpreadInfo :=
  Bot.mkSpreadInfo (u "Расклад") 0 (u "love") (u "Любовь") None.

(** A spread that asks for no card, of the daily layout. *)
Definition no_card_daily_info : Bot.SpreadInfo :=
  Bot.mkSpreadInfo (u "Карта дня") 0 (u "daily") (u "Совет") None.

Definition daily_info : Bot.SpreadInfo :=
  Bot.mkSpreadInfo (u "Карта дня") 1 (u "daily") (u "Совет") None.

(** A spread that asks for more cards than [Samples.nine_cards] holds. *)
Definition ten_cards_info : Bot.SpreadInfo :=
  Bot.mkSpreadInfo (u "Расклад") 10 (u "love") (u "Любовь") None.

Definition other_bot : Bot.TarotBot :=
  Bot.mkTarotBot Samples.nine_cards
    (<[u "daily" := daily_info]>
       (<[u "quick_card" := no_card_daily_info]>
          (<[u "love_spread" := no_card_info]>
             (<[u "work_spread" := ten_cards_info]> ∅)))).

(** A user who has not sent [/start]. *)
Definition new_user : Db.User := Db.mkUser 77 None (u "Борис") None None false.

Definition new_message : Bot.Message := Bot.mkMessage new_user 8.

(** A deck file of two cards. *)
Definition good_file : DeckFile :=
  Records [JObject Samples.wheel_of_fortune;
           JObject (mkRawCard (Some (u "Туз Мечей")) (Some (u "Ясность, правда"))
                      (Some (u "Путаница")) (Some (u "Мечи")) (Some 1%Z)
                      (Some [u "ясность"; u "правда"]) (Some (u "Воздух")) None [])].



(** A deck file whose second record has no [reversed]. *)
Definition incomplete_file : DeckFile :=
  Records [JObject Samples.wheel_of_fortune;
           JObject (mkRawCard (Some (u "Туз Мечей")) (Some (u "Ясность, правда")) None
                      (Some (u "Мечи")) (Some 1%Z) None None None [])].

(** A user whose id is no signed 64-bit integer. *)
Definition far_user : Db.User :=
  Db.mkUser 9223372036854775808 None (u "Борис") None None false.

Definition far_message : Bot.Message := Bot.mkMessage far_user 9.

End MoreSamples.

(** * Properties of the deck *)

Section DrawFacts.
Import Deck.

Lemma randbelow_lt (k : nat) (g : Rng) : 0 < k -> (randbelow k g).1 < k.
Proof.
  intros Hk. destruct g as [|x g']; simpl; [done|].
  apply Nat.mod_upper_bound. lia.
Qed.

(** The cards [sample] returns, together with some remainder, are a
    rearrangement of the pool. *)
Lemma sample_Permutation (n : nat) :
  forall (pool : list TarotCard) (g : Rng),
    n <= length pool ->
    length (sample pool n g).1 = n /\ exists rest, (sample pool n g).1 ++ rest ≡ₚ pool.
Proof.
  induction n as [|n IH]; intros pool g Hn.
  - simpl. split; [done|]. by exists pool.
  - simpl. pose proof (randbelow_lt (length pool) g) as Hlt.
    destruct (randbelow (length pool) g) as [i g1]. simpl in Hlt.
    destruct (lookup_lt_is_Some_2 pool i) as [c Hc]; [lia|].
    rewrite Hc.
    assert (Hlen : length (delete i pool) = length pool - 1)
      by (apply length_delete; eauto).
    destruct (IH (delete i pool) g1) as [IHlen [rest IHperm]]; [lia|].
    destruct (sample (delete i pool) n g1) as [sel g2]. simpl in *.
    split; [by rewrite IHlen|].
    exists rest. rewrite IHperm. symmetry. by apply delete_Permutation.
Qed.

Lemma orient_cards (sel : list TarotCard) :
  forall g : Rng, (orient sel g).1.*1 = sel.
Proof.
  induction sel as [|c sel IH]; intros g; [done|].
  simpl. destruct (coin g) as [r g1]. specialize (IH g1).
  destruct (orient sel g1) as [rest g2]. simpl in *. by f_equal.
Qed.

Lemma sample_names_NoDup (pool : list TarotCard) (n : nat) (g : Rng) :
  n <= length pool -> NoDup (name <$> pool) -> NoDup (name <$> (sample pool n g).1).
Proof.
  intros Hn Hnd.
  destruct (sample_Permutation n pool g Hn) as [_ [rest Hperm]].
  rewrite <- Hperm, fmap_app in Hnd.
  by apply NoDup_app in Hnd as [? _].
Qed.

(** What a draw within the size of the deck returns. *)
Lemma draw_cards_ok (cards : list TarotCard) (n : nat) (g : Rng) :
  n <= length cards ->
  NoDup (name <$> cards) ->
  exists drawn g',
    draw_cards cards n g = (Ok drawn, g')
    /\ length drawn = n
    /\ NoDup ((fun d : DrawnCard => name d.1) <$> drawn).
Proof.
  intros Hn Hnd. unfold draw_cards.
  destruct (decide (length cards < n)) as [Hlt|_]; [lia|].
  pose proof (sample_Permutation n cards g Hn) as [Hlen _].
  pose proof (sample_names_NoDup cards n g Hn Hnd) as Hsel.
  destruct (sample cards n g) as [sel g1]. simpl in *.
  pose proof (orient_cards sel g1) as Hor.
  destruct (orient sel g1) as [drawn g2]. simpl in *.
  exists drawn, g2. split; [done|].
  rewrite <- Hor in Hlen, Hsel. rewrite length_fmap in Hlen.
  split; [done|]. by rewrite <- list_fmap_compose in Hsel.
Qed.

End DrawFacts.

(** C2.  With a deck of pairwise distinct names: a draw of [n] cards, [n] at
    most the size of the deck, returns exactly [n] cards with pairwise
    distinct names; a draw of more cards than the deck holds raises
    [InsufficientCardsError], returns no cards and leaves the random source
    as it was (nothing was sampled). *)
Theorem draw_cards_exact (cards : list Deck.TarotCard) (n : nat) (g : Deck.Rng) :
  NoDup (Deck.name <$> cards) ->
  (n <= length cards ->
     exists drawn g',
       Deck.draw_cards cards n g = (Ok drawn, g')
       /\ length drawn = n
       /\ NoDup ((fun d : Deck.DrawnCard => Deck.name d.1) <$> drawn))
  /\ (length cards < n ->
        Deck.draw_cards cards n g = (Raise InsufficientCardsError, g)).
Proof.
  intros Hnd. split.
  - intros Hn. by apply draw_cards_ok.
  - intros Hn. unfold Deck.draw_cards. by rewrite decide_True.
Qed.

Lemma draw_cards_exact_witness :
  NoDup (Deck.name <$> Samples.nine_cards)
  /\ (exists drawn g',
        Deck.draw_cards Samples.nine_cards 4 Samples.some_rng = (Ok drawn, g')
        /\ length drawn = 4
        /\ NoDup ((fun d : Deck.DrawnCard => Deck.name d.1) <$> drawn))
  /\ Deck.draw_cards Samples.nine_cards 10 Samples.some_rng
     = (Raise InsufficientCardsError, Samples.some_rng).
Proof.
  assert (Hnd : NoDup (Deck.name <$> Samples.nine_cards))
    by (apply (bool_decide_unpack _); vm_compute; exact I).
  split; [exact Hnd|].
  split.
  - apply (draw_cards_exact Samples.nine_cards 4 Samples.some_rng Hnd).
    vm_compute. lia.
  - apply (draw_cards_exact Samples.nine_cards 10 Samples.some_rng Hnd).
    vm_compute. lia.
Defined.

(** * Properties of the handler *)

(** The resolution of a known spread: one call of the draw, which returns as
    many cards as the spread asks for; the database is not touched. *)
Lemma resolve_known (self : Bot.TarotBot) (spread_type : pystr)
    (info : Bot.SpreadInfo) (w : Bot.World) :
  Bot.get_spread_info (Bot.spreads self) spread_type = Some info ->
  Bot.si_cards info <= length (Bot.deck self) ->
  NoDup (Deck.name <$> Bot.deck self) ->
  exists cards_data w',
    Bot.resolve self spread_type w = (Ok (Some (info, cards_data)), w')
    /\ length cards_data = Bot.si_cards info
    /\ NoDup ((fun d : Deck.DrawnCard => Deck.name d.1) <$> cards_data)
    /\ Bot.db w' = Bot.db w
    /\ Bot.trace w' = Bot.trace w ++ [Bot.DrawCards (Bot.si_cards info)].
Proof.
  intros Hinfo Hn Hnd. unfold Bot.resolve. rewrite Hinfo.
  unfold Bot.bind, Bot.call_draw_cards, Bot.ret.
  set (w1 := Bot.emit _ w).
  destruct (draw_cards_ok (Bot.deck self) (Bot.si_cards info) (Bot.rng w1) Hn Hnd)
    as (drawn & g' & Hdraw & Hlen & Hnames).
  rewrite Hdraw. eexists _, _. repeat split; eauto.
Qed.

(** C1.  For a spread that the registry knows, whose card count the deck can
    supply, over a deck of pairwise distinct names: the resolution returns
    the spread with a list of drawn cards as long as the spread's [cards]
    count, and the names of the drawn cards are pairwise distinct. *)
Theorem resolve_reading_size (self : Bot.TarotBot) (spread_type : pystr)
    (info : Bot.SpreadInfo) (w : Bot.World) :
  Bot.get_spread_info (Bot.spreads self) spread_type = Some info ->
  Bot.si_cards info <= length (Bot.deck self) ->
  NoDup (Deck.name <$> Bot.deck self) ->
  exists cards_data w',
    Bot.resolve self spread_type w = (Ok (Some (info, cards_data)), w')
    /\ length cards_data = Bot.si_cards info
    /\ NoDup ((fun d : Deck.DrawnCard => Deck.name d.1) <$> cards_data).
Proof.
  intros Hinfo Hn Hnd.
  destruct (resolve_known self spread_type info w Hinfo Hn Hnd)
    as (cards_data & w' & Hres & Hlen & Hnames & _).
  eauto.
Qed.

Lemma resolve_reading_size_witness :
  exists cards_data w',
    Bot.resolve Samples.some_bot (u "love_spread") Samples.some_world
    = (Ok (Some (Samples.short_labels_info, cards_data)), w')
    /\ length cards_data = 2
    /\ NoDup ((fun d : Deck.DrawnCard => Deck.name d.1) <$> cards_data).
Proof.
  apply (resolve_reading_size Samples.some_bot (u "love_spread")
           Samples.short_labels_info Samples.some_world).
  - vm_compute. reflexivity.
  - vm_compute. lia.
  - apply (bool_decide_unpack _). vm_compute. exact I.
Defined.

(** C4.  For a spread identifier that the registry does not know, the handler
    ends normally after sending the "not found" message: the deck's draw is
    not called, the random source is not read, nothing is written to the
    database, and no other call leaves the handler. *)
Theorem unknown_spread_not_found (self : Bot.TarotBot) (message : Bot.Message)
    (spread_type : pystr) (w : Bot.World) :
  Bot.get_spread_info (Bot.spreads self) spread_type = None ->
  Bot.resolve self spread_type w = (Ok None, w)
  /\ exists w',
       Bot.handle_quick_spread self message spread_type w = (Ok tt, w')
       /\ Bot.db w' = Bot.db w
       /\ Bot.rng w' = Bot.rng w
       /\ Bot.trace w' =
          Bot.trace w ++ [Bot.SendMessage (Bot.chat_id message) (u "❌ Расклад не найден")].
Proof.
  intros Hnone.
  assert (Hres : Bot.resolve self spread_type w = (Ok None, w))
    by (unfold Bot.resolve; by rewrite Hnone).
  split; [exact Hres|].
  unfold Bot.handle_quick_spread, Bot.bind. rewrite Hres.
  eexists. split; [reflexivity|]. done.
Qed.

Lemma unknown_spread_not_found_witness :
  Bot.resolve Samples.some_bot (u "nonexistent_spread_id") Samples.some_world
  = (Ok None, Samples.some_world)
  /\ exists w',
       Bot.handle_quick_spread Samples.some_bot Samples.some_message
         (u "nonexistent_spread_id") Samples.some_world = (Ok tt, w')
       /\ Bot.db w' = Bot.db Samples.some_world
       /\ Bot.rng w' = Bot.rng Samples.some_world
       /\ Bot.trace w' =
          Bot.trace Samples.some_world
            ++ [Bot.SendMessage (Bot.chat_id Samples.some_message) (u "❌ Расклад не найден")].
Proof.
  apply (unknown_spread_not_found Samples.some_bot Samples.some_message
           (u "nonexistent_spread_id") Samples.some_world).
  vm_compute. reflexivity.
Defined.

Section RenderingFacts.
Import Bot.

Lemma daily_is_not_three_cards : u "three_cards" <> u "daily".
Proof. intros H. vm_compute in H. discriminate. Qed.

(** [positions[i-1]], guarded by [i <= len(positions)], is the lookup at the
    0-based index. *)
Lemma position_label_at (positions : list pystr) (i : nat) :
  position_label positions (S i) = Layout.label_at (u "Карта ") positions i.
Proof.
  unfold position_label, Layout.label_at.
  replace (S i - 1) with i by lia.
  destruct (positions !! i) as [p|] eqn:Hp.
  - apply lookup_lt_Some in Hp.
    by rewrite bool_decide_eq_true_2 by (unfold pystr in *; lia).
  - apply lookup_ge_None in Hp.
    by rewrite bool_decide_eq_false_2 by (unfold pystr in *; lia).
Qed.

(** A loop that appends one piece per element builds the concatenation of the
    pieces. *)
Lemma fold_left_append {A} (piece : nat -> A -> pystr) (l : list A) :
  forall (start : nat) (response : pystr),
    fold_left (fun response '(i, x) => response ++ piece i x) (enumerate start l) response
    = response ++ mjoin (imap (fun i x => piece (start + i) x) l).
Proof.
  induction l as [|x l IH]; intros start response.
  - simpl. by rewrite app_nil_r.
  - simpl. rewrite IH, <- app_assoc, Nat.add_0_r. do 3 f_equal.
    apply imap_ext. intros i y _. simpl. f_equal. lia.
Qed.

End RenderingFacts.

(** C6 (amended).  In the positional listing - the layout of every spread
    whose type is neither ['daily'] nor ['three_cards'] - each drawn card
    stands at its 1-indexed draw position [i] under the [i]-th configured
    label when the list of labels has one, and under the synthesized label
    "Карта [i]" when the list of labels is shorter. *)
Theorem generic_layout_labels (spread_info : Bot.SpreadInfo)
    (cards_data : list Deck.DrawnCard) (user_name : pystr) :
  Bot.si_type spread_info <> u "daily" ->
  Bot.si_type spread_info <> u "three_cards" ->
  Bot.format_spread_response spread_info cards_data user_name
  = Ok (Layout.positional_listing (u "Карта ") spread_info cards_data user_name).
Proof.
  intros Hd Ht. unfold Bot.format_spread_response.
  rewrite (decide_False (P := _ = u "daily")) by done.
  rewrite (decide_False (P := _ = u "three_cards")) by done.
  f_equal. unfold Layout.positional_listing, Layout.heading.
  set (positions := default [] (Bot.si_positions spread_info)).
  pose (piece := fun (i : nat) (d : Deck.DrawnCard) =>
                   Layout.entry i (Bot.position_label positions i)
                                (Deck.get_short_description d.1 d.2)).
  transitivity
    (fold_left (fun response '(i, d) => response ++ piece i d) (Bot.enumerate 1 cards_data)
       (u "✨ *" ++ Bot.si_name spread_info ++ u " для " ++ user_name ++ u "* ✨" ++ Bot.nl ++ Bot.nl
          ++ u "*" ++ Bot.si_description spread_info ++ u "*" ++ Bot.nl ++ Bot.nl)).
  - rewrite <- !app_assoc.
    generalize (u "✨ *" ++ Bot.si_name spread_info ++ u " для " ++ user_name ++ u "* ✨" ++ Bot.nl
                  ++ Bot.nl ++ u "*" ++ Bot.si_description spread_info ++ u "*" ++ Bot.nl ++ Bot.nl).
    generalize 1. induction cards_data as [|[card r] l IH]; intros start response; [done|].
    cbn [fold_left Bot.enumerate]. rewrite <- IH. f_equal.
    unfold piece, Layout.entry. cbn [fst snd]. by rewrite <- !app_assoc.
  - rewrite fold_left_append. do 2 f_equal.
    apply imap_ext. intros i d _. unfold piece. cbn [Nat.add].
    by rewrite position_label_at.
Qed.

Lemma generic_layout_labels_witness :
  Bot.format_spread_response Samples.short_labels_info
    [(Samples.the_fool, false); (Samples.the_fool, true); (Samples.the_fool, false)] (u "Анна")
  = Ok (Layout.positional_listing (u "Карта ") Samples.short_labels_info
          [(Samples.the_fool, false); (Samples.the_fool, true); (Samples.the_fool, false)]
          (u "Анна")).
Proof.
  apply (generic_layout_labels Samples.short_labels_info
           [(Samples.the_fool, false); (Samples.the_fool, true); (Samples.the_fool, false)]
           (u "Анна")).
  - vm_compute. discriminate.
  - vm_compute. discriminate.
Defined.

(** C6 as stated fails: with one configured label and two drawn cards, the
    second card of the positional listing does not stand under the label
    "Card 2"; and in the three-card layout the second card is not listed at
    all. *)
Lemma generic_label_is_not_Card :
  Bot.format_spread_response Samples.short_labels_info
    [(Samples.the_fool, false); (Samples.the_fool, true)] (u "Анна")
  <> Ok (Layout.positional_listing (u "Card ") Samples.short_labels_info
           [(Samples.the_fool, false); (Samples.the_fool, true)] (u "Анна"))
  /\ Bot.format_spread_response Samples.short_three_info
       [(Samples.the_fool, false); (Samples.the_fool, true)] (u "Анна")
     = Ok (Layout.heading Samples.short_three_info (u "Анна")
             ++ Layout.entry 1 (u "Настоящее")
                  (Deck.get_description Samples.the_fool false)).
Proof. split; [vm_compute; discriminate | vm_compute; reflexivity]. Qed.

(** A resolution of a known spread of three cards returns three drawn cards
    of pairwise distinct names. *)
Lemma resolve_three (self : Bot.TarotBot) (info : Bot.SpreadInfo) (w : Bot.World)
    (spread_type : pystr) :
  Bot.get_spread_info (Bot.spreads self) spread_type = Some info ->
  Bot.si_cards info = 3 ->
  3 <= length (Bot.deck self) ->
  NoDup (Deck.name <$> Bot.deck self) ->
  exists (d1 d2 d3 : Deck.DrawnCard) w',
    Bot.resolve self spread_type w = (Ok (Some (info, [d1; d2; d3])), w')
    /\ NoDup [Deck.name d1.1; Deck.name d2.1; Deck.name d3.1].
Proof.
  intros Hinfo Hcards Hdeck Hnd. rewrite <- Hcards in Hdeck.
  destruct (resolve_known self spread_type info w Hinfo Hdeck Hnd)
    as (drawn & w' & Hres & Hlen & Hnames & _).
  rewrite Hcards in Hlen.
  destruct drawn as [|d1 [|d2 [|d3 [|d4 rest]]]]; try discriminate Hlen.
  exists d1, d2, d3. eauto.
Qed.

(** C7.  With the spread ["three_cards"] registered with 3 cards, the type
    ['three_cards'] and the labels "Прошлое", "Настоящее", "Будущее" (or no
    labels of its own), over a deck of at least 3 cards with pairwise
    distinct names: the resolution returns exactly 3 drawn cards with
    pairwise distinct names, and the response lists them in draw order, the
    first under "Прошлое", the second under "Настоящее", the third under
    "Будущее". *)
Theorem three_cards_reading (self : Bot.TarotBot) (user_name : pystr)
    (info : Bot.SpreadInfo) (w : Bot.World) :
  Bot.get_spread_info (Bot.spreads self) (u "three_cards") = Some info ->
  Bot.si_cards info = 3 ->
  Bot.si_type info = u "three_cards" ->
  (Bot.si_positions info = Some [u "Прошлое"; u "Настоящее"; u "Будущее"]
   \/ Bot.si_positions info = None) ->
  3 <= length (Bot.deck self) ->
  NoDup (Deck.name <$> Bot.deck self) ->
  exists (d1 d2 d3 : Deck.DrawnCard) w',
    Bot.resolve self (u "three_cards") w = (Ok (Some (info, [d1; d2; d3])), w')
    /\ NoDup [Deck.name d1.1; Deck.name d2.1; Deck.name d3.1]
    /\ Bot.format_spread_response info [d1; d2; d3] user_name
       = Ok (Layout.heading info user_name
               ++ Layout.entry 1 (u "Прошлое") (Deck.get_description d1.1 d1.2)
               ++ Layout.entry 2 (u "Настоящее") (Deck.get_description d2.1 d2.2)
               ++ Layout.entry 3 (u "Будущее") (Deck.get_description d3.1 d3.2)).
Proof.
  intros Hinfo Hcards Htype Hpos Hdeck Hnd.
  destruct (resolve_three self info w (u "three_cards") Hinfo Hcards Hdeck Hnd)
    as (d1 & d2 & d3 & w' & Hres & Hnames).
  exists d1, d2, d3, w'. split; [exact Hres|]. split; [exact Hnames|].
  unfold Bot.format_spread_response. rewrite Htype.
  rewrite (decide_False (P := _ = u "daily")) by apply daily_is_not_three_cards.
  rewrite (decide_True (P := _ = u "three_cards")) by done.
  f_equal.
  assert (Hdef : default [u "Прошлое"; u "Настоящее"; u "Будущее"] (Bot.si_positions info)
                 = [u "Прошлое"; u "Настоящее"; u "Будущее"])
    by (destruct Hpos as [-> | ->]; reflexivity).
  rewrite Hdef. destruct d1 as [c1 r1], d2 as [c2 r2], d3 as [c3 r3].
  cbn [zip_with Bot.enumerate fold_left fst snd].
  unfold Layout.heading, Layout.entry.
  by rewrite <- !app_assoc.
Qed.

Lemma three_cards_reading_witness :
  exists (d1 d2 d3 : Deck.DrawnCard) w',
    Bot.resolve Samples.some_bot (u "three_cards") Samples.some_world
    = (Ok (Some (Samples.three_cards_info, [d1; d2; d3])), w')
    /\ NoDup [Deck.name d1.1; Deck.name d2.1; Deck.name d3.1]
    /\ Bot.format_spread_response Samples.three_cards_info [d1; d2; d3] (u "Анна")
       = Ok (Layout.heading Samples.three_cards_info (u "Анна")
               ++ Layout.entry 1 (u "Прошлое") (Deck.get_description d1.1 d1.2)
               ++ Layout.entry 2 (u "Настоящее") (Deck.get_description d2.1 d2.2)
               ++ Layout.entry 3 (u "Будущее") (Deck.get_description d3.1 d3.2)).
Proof.
  apply (three_cards_reading Samples.some_bot (u "Анна") Samples.three_cards_info
           Samples.some_world).
  - vm_compute. reflexivity.
  - reflexivity.
  - reflexivity.
  - left. reflexivity.
  - vm_compute. lia.
  - apply (bool_decide_unpack _). vm_compute. exact I.
Defined.

(** A rendering of at least one card does not raise. *)
Lemma format_spread_response_Ok (spread_info : Bot.SpreadInfo)
    (cards_data : list Deck.DrawnCard) (user_name : pystr) :
  cards_data <> [] ->
  exists response, Bot.format_spread_response spread_info cards_data user_name = Ok response.
Proof.
  intros Hne. unfold Bot.format_spread_response.
  destruct (decide (Bot.si_type spread_info = u "daily")).
  - destruct cards_data as [|[card r] rest]; [done|]. eauto.
  - destruct (decide (Bot.si_type spread_info = u "three_cards")); eauto.
Qed.

(** A reading of at least one card is not stored: [json.dumps] raises on the
    first card, the handler ends with [TypeError] after the draw, the
    database is as before, and neither the activity update nor the reply
    takes place. *)
Lemma handle_quick_spread_save_raises (self : Bot.TarotBot) (message : Bot.Message)
    (spread_type : pystr) (info : Bot.SpreadInfo) (w : Bot.World) :
  Bot.get_spread_info (Bot.spreads self) spread_type = Some info ->
  0 < Bot.si_cards info <= length (Bot.deck self) ->
  NoDup (Deck.name <$> Bot.deck self) ->
  exists cards_data w',
    Bot.handle_quick_spread self message spread_type w = (Raise TypeError, w')
    /\ Bot.db w' = Bot.db w
    /\ Bot.trace w' =
       Bot.trace w ++ [Bot.DrawCards (Bot.si_cards info);
                       Bot.SaveReading (Db.u_id (Bot.from_user message)) spread_type cards_data].
Proof.
  intros Hinfo [Hpos Hn] Hnd.
  destruct (resolve_known self spread_type info w Hinfo Hn Hnd)
    as (cards_data & w1 & Hres & Hlen & _ & Hdb & Htr).
  assert (Hne : cards_data <> []) by (intros ->; simpl in Hlen; lia).
  destruct (format_spread_response_Ok info cards_data
              (Db.u_first_name (Bot.from_user message)) Hne) as [response Hfmt].
  exists cards_data. eexists. split.
  - unfold Bot.handle_quick_spread, Bot.bind at 1. rewrite Hres.
    unfold Bot.bind, Bot.lift. rewrite Hfmt.
    unfold Bot.call_save_reading, Db.save_reading, Db.json_dumps.
    destruct cards_data as [|d rest]; [done|]. reflexivity.
  - simpl. rewrite Hdb, Htr, <- app_assoc. done.
Qed.

(** * Properties of the cards *)

(** C3 as stated fails: the record of the upright Fool holds the text of its
    upright meaning. *)
Lemma to_dict_holds_meaning :
  Deck.dict_get (u "meaning") (Deck.to_dict Samples.the_fool false)
  = Some (u "Начало, свобода, невинность")
  /\ ~ (forall k v : pystr,
          Deck.dict_get k (Deck.to_dict Samples.the_fool false) = Some v ->
          v <> Deck.get_meaning Samples.the_fool false).
Proof.
  split; [vm_compute; reflexivity|].
  intros H.
  apply (H (u "meaning") (u "Начало, свобода, невинность")); vm_compute; reflexivity.
Qed.

(** C3 (amended).  The record of a drawn card has exactly the keys ['name'],
    ['type'], ['position'], ['meaning'] and ['short_meaning']: the card's
    name, the value of its card type, "reversed" exactly when the card is
    reversed and "upright" otherwise, the meaning of that orientation, and
    its short form. *)
Theorem to_dict_fields (self : Deck.TarotCard) (is_reversed : bool) :
  let d := Deck.to_dict self is_reversed in
  d.*1 = [u "name"; u "type"; u "position"; u "meaning"; u "short_meaning"]
  /\ Deck.dict_get (u "name") d = Some (Deck.name self)
  /\ Deck.dict_get (u "type") d = Some (Deck.value (Deck.card_type self))
  /\ (Deck.dict_get (u "position") d = Some (u "reversed") <-> is_reversed = true)
  /\ (Deck.dict_get (u "position") d = Some (u "upright") <-> is_reversed = false)
  /\ Deck.dict_get (u "meaning") d = Some (Deck.get_meaning self is_reversed)
  /\ Deck.dict_get (u "short_meaning") d
     = Some (Deck.get_short_meaning self is_reversed 100).
Proof.
  assert (Hpos : Deck.dict_get (u "position") (Deck.to_dict self is_reversed)
                 = Some (if is_reversed then u "reversed" else u "upright"))
    by reflexivity.
  cbv zeta. rewrite Hpos.
  repeat split; try reflexivity; destruct is_reversed; try done;
    intros H; vm_compute in H; discriminate.
Qed.

(** C9.  For a positive [max_length]: the short meaning is the meaning of the
    orientation itself when that has at most [max_length] characters, and
    otherwise its first [max_length] characters followed by "..."; it is
    never longer than [max_length + 3]. *)
Theorem get_short_meaning_spec (self : Deck.TarotCard) (is_reversed : bool)
    (max_length : Z) :
  (0 < max_length)%Z ->
  let meaning := Deck.get_meaning self is_reversed in
  let short := Deck.get_short_meaning self is_reversed max_length in
  ((len meaning <= max_length)%Z -> short = meaning)
  /\ ((max_length < len meaning)%Z ->
        short = take (Z.to_nat max_length) meaning ++ u "..."
        /\ len (take (Z.to_nat max_length) meaning) = max_length)
  /\ (len short <= max_length + 3)%Z.
Proof.
  intros Hpos meaning short. subst short. unfold Deck.get_short_meaning.
  fold meaning. unfold slice_to.
  destruct (Z.ltb_spec max_length 0) as [?|_]; [lia|].
  assert (Hcut : (max_length < len meaning)%Z ->
                 len (take (Z.to_nat max_length) meaning) = max_length).
  { intros Hlt. unfold len in *. rewrite length_take_le by lia. lia. }
  destruct (Z.gtb_spec (len meaning) max_length) as [Hgt|Hle].
  - split; [lia|]. split; [auto|].
    specialize (Hcut Hgt). unfold len in *. rewrite length_app.
    change (length (u "...")) with 3. lia.
  - split; [done|]. split; [lia|]. lia.
Qed.

Lemma get_short_meaning_spec_witness :
  let meaning := Deck.get_meaning Samples.the_fool false in
  let short := Deck.get_short_meaning Samples.the_fool false 6 in
  ((len meaning <= 6)%Z -> short = meaning)
  /\ ((6 < len meaning)%Z ->
        short = take (Z.to_nat 6) meaning ++ u "..."
        /\ len (take (Z.to_nat 6) meaning) = 6%Z)
  /\ (len short <= 6 + 3)%Z.
Proof.
  apply (get_short_meaning_spec Samples.the_fool false 6). lia.
Defined.

(** C10.  After construction the [keywords] of a card is a list: the list
    that was passed, and the empty list when the argument was left out or
    was [None]. *)
Theorem keywords_is_list (name upright reversed : pystr) (card_type : Deck.CardType)
    (number : option Z) (keywords : option (list pystr)) (element astro : pystr) :
  Deck.keywords
    (Deck.TarotCard_init name upright reversed card_type number keywords element astro)
  = Some (default [] keywords).
Proof. unfold Deck.TarotCard_init, Deck.post_init. by destruct keywords. Qed.

(** * Properties of the database *)

(** C8.  One call of the activity update adds exactly 1 to the user's
    [cards_drawn] and exactly 1 to the user's [readings_count]; the call has
    no argument for the cards of the reading, and it leaves the stored
    readings and the rows of other users as they are. *)
Theorem update_user_activity_adds_one (d : Db.Database) (user_id now : Z)
    (row : Db.UserRow) (c r : Z) :
  Db.users d !! user_id = Some row ->
  Db.cards_drawn row = Db.SqlInt c ->
  Db.readings_count row = Db.SqlInt r ->
  (c < Db.INT64_MAX)%Z ->
  (r < Db.INT64_MAX)%Z ->
  let d' := Db.update_user_activity user_id now d in
  (exists row',
     Db.users d' !! user_id = Some row'
     /\ Db.cards_drawn row' = Db.SqlInt (c + 1)
     /\ Db.readings_count row' = Db.SqlInt (r + 1))
  /\ (forall other, other <> user_id -> Db.users d' !! other = Db.users d !! other)
  /\ Db.readings d' = Db.readings d.
Proof.
  intros Hrow Hc Hr Hcmax Hrmax d'. subst d'. unfold Db.update_user_activity. simpl.
  split; [|split; [|done]].
  - exists (Db.touch now row). rewrite lookup_alter_eq, Hrow. split; [done|].
    unfold Db.touch. simpl. rewrite Hc, Hr. unfold Db.sql_incr.
    destruct (Z.ltb_spec c Db.INT64_MAX); [|lia].
    destruct (Z.ltb_spec r Db.INT64_MAX); [|lia]. done.
  - intros other Hne. by rewrite lookup_alter_ne.
Qed.

Lemma update_user_activity_adds_one_witness :
  let d' := Db.update_user_activity 42 2000 (Bot.db Samples.some_world) in
  (exists row',
     Db.users d' !! 42%Z = Some row'
     /\ Db.cards_drawn row' = Db.SqlInt (0 + 1)
     /\ Db.readings_count row' = Db.SqlInt (0 + 1))
  /\ (forall other, other <> 42%Z ->
        Db.users d' !! other = Db.users (Bot.db Samples.some_world) !! other)
  /\ Db.readings d' = Db.readings (Bot.db Samples.some_world).
Proof.
  apply (update_user_activity_adds_one (Bot.db Samples.some_world) 42 2000
           (Db.mkUserRow None (Some (u "Анна")) None None false 1000 (Some 1000%Z)
              (Db.SqlInt 0) (Db.SqlInt 0)) 0 0).
  - vm_compute. reflexivity.
  - reflexivity.
  - reflexivity.
  - vm_compute. reflexivity.
  - vm_compute. reflexivity.
Defined.

(** * Further properties of the deck *)

Section DeckMore.
Import Deck.

Lemma value_inj (t t' : CardType) : value t = value t' -> t = t'.
Proof. destruct t, t'; intros H; vm_compute in H; congruence. Qed.

Lemma CardType_of_value_value (t : CardType) : CardType_of_value (value t) = Ok t.
Proof. destruct t; vm_compute; reflexivity. Qed.

Lemma load_records_app (rs : list JItem) :
  forall (cards : list TarotCard) (parsed : list TarotCard),
    Forall2 (fun item c => parse_card item = Ok c) rs parsed ->
    load_records rs cards = (Ok tt, cards ++ parsed).
Proof.
  induction rs as [|item rs IH]; intros cards parsed Hall.
  - apply Forall2_nil_inv_l in Hall as ->. by rewrite app_nil_r.
  - apply Forall2_cons_inv_l in Hall as (c & parsed' & Hc & Hrest & ->).
    simpl. rewrite Hc, (IH _ parsed' Hrest), <- app_assoc. done.
Qed.

Lemma load_records_Ok_inv (rs : list JItem) :
  forall (cards cards' : list TarotCard) (r : unit),
    load_records rs cards = (Ok r, cards') ->
    exists parsed,
      Forall2 (fun item c => parse_card item = Ok c) rs parsed /\ cards' = cards ++ parsed.
Proof.
  induction rs as [|item rs IH]; intros cards cards' r Hload; simpl in Hload.
  - injection Hload as _ <-. exists []. by rewrite app_nil_r.
  - destruct (parse_card item) as [c|e] eqn:Hc; [|discriminate].
    destruct (IH _ _ _ Hload) as (parsed & Hall & ->).
    exists (c :: parsed). split; [by constructor|]. by rewrite <- app_assoc.
Qed.

Lemma short_meaning_bound (self : TarotCard) (is_reversed : bool) (max_length : Z) :
  (0 <= max_length)%Z ->
  (len (get_short_meaning self is_reversed max_length) <= max_length + 3)%Z.
Proof.
  intros Hpos. unfold get_short_meaning, slice_to.
  destruct (Z.ltb_spec max_length 0) as [?|_]; [lia|].
  destruct (Z.gtb_spec (len (get_meaning self is_reversed)) max_length) as [Hgt|Hle];
    [|lia].
  unfold len in *. rewrite length_app, length_take.
  change (length (u "...")) with 3. lia.
Qed.




(** The model of the claims is [load_deck_via] with a
    [_create_basic_deck] that replaces the cards. *)
Lemma load_deck_is_via (builtin : list TarotCard) (file : DeckFile)
    (cards : list TarotCard) :
  load_deck builtin file cards = load_deck_via (fun _ => builtin) file cards.
Proof. reflexivity. Qed.

End DeckMore.




(** X1.  The lookup of a card type by its value inverts [value]: it returns
    the type [t] exactly for the value of [t], and for every other string it
    raises [ValueError]. *)
Theorem CardType_value_round_trip (v : pystr) :
  (forall t, Deck.CardType_of_value v = Ok t <-> v = Deck.value t)
  /\ (forall e, Deck.CardType_of_value v = Raise e ->
        e = ValueError /\ forall t, v <> Deck.value t).
Proof.
  split.
  - intros t. split.
    + unfold Deck.CardType_of_value. repeat case_decide; congruence.
    + intros ->. apply CardType_of_value_value.
  - intros e He. split.
    + revert He. unfold Deck.CardType_of_value. repeat case_decide; congruence.
    + intros t ->. by rewrite CardType_of_value_value in He.
Qed.

(** X2.  A deck file whose records all parse is loaded behind the cards the
    deck already holds, one card per record in the order of the file; the
    count of all cards is printed and the built-in deck is not used. *)
Theorem load_deck_appends (builtin cards : list Deck.TarotCard)
    (rs : list Deck.JItem) (parsed : list Deck.TarotCard) :
  Forall2 (fun item c => Deck.parse_card item = Ok c) rs parsed ->
  Deck.load_deck builtin (Deck.Records rs) cards
  = (cards ++ parsed, [Deck.LoadedFromFile (length cards + length rs)]).
Proof.
  intros Hall. unfold Deck.load_deck.
  rewrite (load_records_app rs cards parsed Hall).
  by rewrite length_app, (Forall2_length _ _ _ Hall).
Qed.

Lemma load_deck_appends_witness :
  Deck.load_deck Samples.nine_cards MoreSamples.good_file [Samples.the_fool]
  = ([Samples.the_fool] ++
       [Deck.TarotCard_init (u "X. Колесо Фортуны") (u "Удача") (u "Неудача") Deck.MAJOR
          (Some 10%Z) None [] [];
        Deck.TarotCard_init (u "Туз Мечей") (u "Ясность, правда") (u "Путаница") Deck.SWORDS
          (Some 1%Z) (Some [u "ясность"; u "правда"]) (u "Воздух") []],
     [Deck.LoadedFromFile (1 + 2)]).
Proof.
  apply (load_deck_appends Samples.nine_cards [Samples.the_fool]).
  repeat constructor.
Defined.

(** X3.  [load_deck] does not empty the deck first: loading the same valid,
    non-empty file a second time stores every card of the file twice, so
    the names of the deck are no longer pairwise distinct. *)
Theorem load_deck_twice_duplicates (builtin : list Deck.TarotCard)
    (rs : list Deck.JItem) (parsed : list Deck.TarotCard) :
  Forall2 (fun item c => Deck.parse_card item = Ok c) rs parsed ->
  rs <> [] ->
  let once := (Deck.load_deck builtin (Deck.Records rs) []).1 in
  let twice := (Deck.load_deck builtin (Deck.Records rs) once).1 in
  once = parsed /\ twice = parsed ++ parsed /\ ~ NoDup (Deck.name <$> twice).
Proof.
  intros Hall Hne once twice.
  assert (Honce : once = parsed).
  { unfold once. by rewrite (load_deck_appends builtin [] rs parsed Hall). }
  assert (Htwice : twice = parsed ++ parsed).
  { unfold twice. rewrite Honce.
    by rewrite (load_deck_appends builtin parsed rs parsed Hall). }
  split; [done|]. split; [done|].
  rewrite Htwice, fmap_app. intros Hnd.
  destruct parsed as [|c parsed'].
  - apply Forall2_nil_inv_r in Hall. done.
  - apply NoDup_app in Hnd as (_ & Hdisj & _).
    apply (Hdisj (Deck.name c)); simpl; left.
Qed.

Lemma load_deck_twice_duplicates_witness :
  let once := (Deck.load_deck Samples.nine_cards MoreSamples.good_file []).1 in
  let twice := (Deck.load_deck Samples.nine_cards MoreSamples.good_file once).1 in
  exists parsed,
    length parsed = 2
    /\ once = parsed /\ twice = parsed ++ parsed /\ ~ NoDup (Deck.name <$> twice).
Proof.
  eexists. split; [|eapply (load_deck_twice_duplicates Samples.nine_cards)].
  2: { repeat constructor. }
  - reflexivity.
  - discriminate.
Defined.

(** X4.  When reading the records raises, the records before the first one
    that fails were parsed and appended, that record raised the error, and
    no record after it was looked at. *)
Theorem load_records_first_failure (rs : list Deck.JItem)
    (cards cards' : list Deck.TarotCard) (e : Exn) :
  Deck.load_records rs cards = (Raise e, cards') <->
  exists good bad rest parsed,
    rs = good ++ bad :: rest
    /\ Forall2 (fun item c => Deck.parse_card item = Ok c) good parsed
    /\ Deck.parse_card bad = Raise e
    /\ cards' = cards ++ parsed.
Proof.
  split.
  - revert cards. induction rs as [|item rs IH]; intros cards Hload; simpl in Hload.
    + discriminate.
    + destruct (Deck.parse_card item) as [c|e'] eqn:Hc.
      * destruct (IH _ Hload) as (good & bad & rest & parsed & -> & Hall & Hbad & ->).
        exists (item :: good), bad, rest, (c :: parsed).
        split; [done|]. split; [by constructor|]. split; [done|].
        by rewrite <- app_assoc.
      * injection Hload as <- <-. exists [], item, rs, [].
        split; [done|]. split; [constructor|]. split; [done|]. by rewrite app_nil_r.
  - intros (good & bad & rest & parsed & -> & Hall & Hbad & ->).
    revert cards. induction Hall as [|item c good parsed Hc _ IH]; intros cards; simpl.
    + by rewrite Hbad, app_nil_r.
    + rewrite Hc, IH, <- app_assoc. done.
Qed.

(** X5.  For a negative [max_length] the short meaning is always cut: it is
    the meaning without its last [-max_length] characters, followed by
    "...", so it has [max(0, len + max_length) + 3] characters. *)
Theorem get_short_meaning_negative (self : Deck.TarotCard) (is_reversed : bool)
    (max_length : Z) :
  (max_length < 0)%Z ->
  let meaning := Deck.get_meaning self is_reversed in
  let short := Deck.get_short_meaning self is_reversed max_length in
  short = take (Z.to_nat (len meaning + max_length)) meaning ++ u "..."
  /\ len short = (Z.max 0 (len meaning + max_length) + 3)%Z.
Proof.
  intros Hneg meaning short. subst short. unfold Deck.get_short_meaning.
  fold meaning. unfold slice_to.
  destruct (Z.gtb_spec (len meaning) max_length) as [_|Hle]; [|unfold len in Hle; lia].
  destruct (Z.ltb_spec max_length 0) as [_|?]; [|lia].
  replace (Z.to_nat (Z.max 0 (len meaning + max_length)))
    with (Z.to_nat (len meaning + max_length)) by lia.
  split; [done|].
  unfold len. rewrite length_app, length_take.
  change (length (u "...")) with 3. unfold len. lia.
Qed.

Lemma get_short_meaning_negative_witness :
  let meaning := Deck.get_meaning Samples.the_fool true in
  let short := Deck.get_short_meaning Samples.the_fool true (-4) in
  short = take (Z.to_nat (len meaning + -4)) meaning ++ u "..."
  /\ len short = (Z.max 0 (len meaning + -4) + 3)%Z.
Proof.
  apply (get_short_meaning_negative Samples.the_fool true (-4)). lia.
Defined.

(** X6.  The short description of a card is its name, the arrow of the
    orientation and the short meaning; it is at most 110 characters longer
    than the name. *)
Theorem get_short_description_length (self : Deck.TarotCard) (is_reversed : bool) :
  len (Deck.get_short_description self is_reversed)
  = (len (Deck.name self) + 7 + len (Deck.get_short_meaning self is_reversed 100))%Z
  /\ (len (Deck.get_short_description self is_reversed) <= len (Deck.name self) + 110)%Z.
Proof.
  assert (Heq : len (Deck.get_short_description self is_reversed)
                = (len (Deck.name self) + 7
                   + len (Deck.get_short_meaning self is_reversed 100))%Z).
  { unfold Deck.get_short_description, len. rewrite !length_app.
    change (length (u " (")) with 2. change (length (u ") - ")) with 4.
    destruct is_reversed.
    - change (length (u "🔻")) with 1. lia.
    - change (length (u "🔺")) with 1. lia. }
  split; [exact Heq|]. rewrite Heq.
  pose proof (short_meaning_bound self is_reversed 100). lia.
Qed.

(** * Further properties of the database *)

Section DbMore.
Import Db.

Lemma update_user_activity_lookup (user_id now : Z) (d : Database) (row : UserRow) :
  users d !! user_id = Some row ->
  users (update_user_activity user_id now d) !! user_id = Some (touch now row).
Proof. intros Hrow. unfold update_user_activity. simpl. by rewrite lookup_alter_eq, Hrow. Qed.

Lemma sql_incr_int (c : Z) : (c < INT64_MAX)%Z -> sql_incr (SqlInt c) = SqlInt (c + 1).
Proof. intros Hc. unfold sql_incr. by destruct (Z.ltb_spec c INT64_MAX); [|lia]. Qed.

End DbMore.

(** X7.  For a user whose id is a signed 64-bit integer and whose texts
    encode, [add_user] returns and the user has a row afterwards: the row
    the user had before, unchanged, or a new row with both counters at 0,
    [created_at] from the clock of the database and [last_activity] from the
    clock of the program.  For a user who has a row the whole database stays
    as it is; the rows of other users and the stored readings are never
    touched.  For an id outside the signed 64-bit integers [add_user] raises
    [OverflowError] and stores nothing. *)
Theorem add_user_lookup (user : Db.User) (now current_timestamp : Z) (d : Db.Database) :
  (Db.bindable_int (Db.u_id user) = true ->
   Db.bindable_texts user = true ->
   exists d',
     Db.add_user user now current_timestamp d = (Ok tt, d')
     /\ Db.get_user_stats (Db.u_id user) d'
        = Some (match Db.users d !! Db.u_id user with
                | Some row => row
                | None =>
                    Db.mkUserRow (Db.u_username user) (Some (Db.u_first_name user))
                      (Db.u_last_name user) (Db.u_language_code user) (Db.u_is_bot user)
                      current_timestamp (Some now) (Db.SqlInt 0) (Db.SqlInt 0)
                end)
     /\ (is_Some (Db.users d !! Db.u_id user) -> d' = d)
     /\ (forall other, other <> Db.u_id user ->
           Db.get_user_stats other d' = Db.get_user_stats other d)
     /\ Db.readings d' = Db.readings d)
  /\ (Db.bindable_int (Db.u_id user) = false ->
      Db.add_user user now current_timestamp d = (Raise OverflowError, d)).
Proof.
  unfold Db.get_user_stats, Db.add_user. split.
  - intros -> ->. cbn [negb].
    destruct (Db.users d !! Db.u_id user) as [row|] eqn:Hrow.
    + exists d. by rewrite Hrow.
    + eexists. split; [reflexivity|]. cbn [Db.users Db.readings].
      rewrite lookup_insert_eq. split; [done|]. split; [|split; [|done]].
      * intros [row Hsome]. discriminate.
      * intros other Hne. by rewrite lookup_insert_ne.
  - by intros ->.
Qed.

Lemma add_user_lookup_witness :
  (exists d',
     Db.add_user MoreSamples.new_user 3000 2990 (Bot.db Samples.some_world) = (Ok tt, d')
     /\ Db.get_user_stats (Db.u_id MoreSamples.new_user) d'
        = Some (match Db.users (Bot.db Samples.some_world) !! Db.u_id MoreSamples.new_user with
                | Some row => row
                | None =>
                    Db.mkUserRow (Db.u_username MoreSamples.new_user)
                      (Some (Db.u_first_name MoreSamples.new_user))
                      (Db.u_last_name MoreSamples.new_user)
                      (Db.u_language_code MoreSamples.new_user)
                      (Db.u_is_bot MoreSamples.new_user)
                      2990 (Some 3000%Z) (Db.SqlInt 0) (Db.SqlInt 0)
                end)
     /\ (is_Some (Db.users (Bot.db Samples.some_world) !! Db.u_id MoreSamples.new_user) ->
         d' = Bot.db Samples.some_world)
     /\ (forall other, other <> Db.u_id MoreSamples.new_user ->
           Db.get_user_stats other d' = Db.get_user_stats other (Bot.db Samples.some_world))
     /\ Db.readings d' = Db.readings (Bot.db Samples.some_world))
  /\ Db.add_user MoreSamples.far_user 3000 2990 (Bot.db Samples.some_world)
     = (Raise OverflowError, Bot.db Samples.some_world).
Proof.
  split.
  - apply (add_user_lookup MoreSamples.new_user 3000 2990 (Bot.db Samples.some_world));
      vm_compute; reflexivity.
  - apply (add_user_lookup MoreSamples.far_user 3000 2990 (Bot.db Samples.some_world)).
    vm_compute. reflexivity.
Defined.

(** X8.  The activity update of a user who has no row changes nothing: no row
    is created and no counter moves. *)
Theorem update_user_activity_unknown (user_id now : Z) (d : Db.Database) :
  Db.users d !! user_id = None ->
  Db.update_user_activity user_id now d = d.
Proof.
  intros Hnone. unfold Db.update_user_activity. destruct d as [us rs lid]. simpl in *.
  f_equal. apply alter_id. intros row Hrow. congruence.
Qed.

Lemma update_user_activity_unknown_witness :
  Db.update_user_activity 77 3000 (Bot.db Samples.some_world) = Bot.db Samples.some_world.
Proof.
  apply (update_user_activity_unknown 77 3000 (Bot.db Samples.some_world)).
  vm_compute. reflexivity.
Defined.

(** X9.  The two counters of a user never differ: they are equal in a new
    database, and [add_user], [update_user_activity] and [save_reading] keep
    them equal in every row. *)
Theorem counters_agree_invariant :
  Invariants.counters_agree Db.init_db
  /\ forall d, Invariants.counters_agree d ->
       (forall user now current_timestamp,
          Invariants.counters_agree (Db.add_user user now current_timestamp d).2)
       /\ (forall user_id now,
             Invariants.counters_agree (Db.update_user_activity user_id now d))
       /\ (forall user_id spread_type cards now,
             Invariants.counters_agree (Db.save_reading user_id spread_type cards now d).2).
Proof.
  unfold Invariants.counters_agree. split; [apply map_Forall_empty|].
  intros d Hd. split; [|split].
  - intros user now current_timestamp. unfold Db.add_user.
    destruct (negb (Db.bindable_int (Db.u_id user))); [done|].
    destruct (negb (Db.bindable_texts user)); [done|].
    destruct (Db.users d !! Db.u_id user) eqn:Hrow; [done|]. simpl.
    by apply map_Forall_insert_2.
  - intros user_id now other row. unfold Db.update_user_activity. simpl.
    destruct (decide (user_id = other)) as [<-|Hne].
    + rewrite lookup_alter_eq. destruct (Db.users d !! user_id) as [row0|] eqn:Hrow0;
        [|done].
      intros [= <-]. simpl. by rewrite (Hd _ _ Hrow0).
    + rewrite lookup_alter_ne by done. apply Hd.
  - intros user_id spread_type cards now. unfold Db.save_reading.
    by destruct (Db.json_dumps cards).
Qed.

(** X10.  One activity update per entry of [times] adds the number of updates
    to both counters of the user, as long as the counters stay within the
    64-bit integers. *)
Theorem repeated_updates_count (d : Db.Database) (user_id : Z) (times : list Z)
    (row : Db.UserRow) (c r : Z) :
  Db.users d !! user_id = Some row ->
  Db.cards_drawn row = Db.SqlInt c ->
  Db.readings_count row = Db.SqlInt r ->
  (c + Z.of_nat (length times) <= Db.INT64_MAX)%Z ->
  (r + Z.of_nat (length times) <= Db.INT64_MAX)%Z ->
  exists row',
    Db.users (foldr (Db.update_user_activity user_id) d times) !! user_id = Some row'
    /\ Db.cards_drawn row' = Db.SqlInt (c + Z.of_nat (length times))
    /\ Db.readings_count row' = Db.SqlInt (r + Z.of_nat (length times)).
Proof.
  intros Hrow Hc Hr. induction times as [|now times IH]; intros Hcmax Hrmax.
  - exists row. simpl. rewrite !Z.add_0_r. done.
  - simpl length in *. destruct IH as (row' & Hrow' & Hc' & Hr'); [lia..|].
    exists (Db.touch now row'). split.
    + simpl. by apply update_user_activity_lookup.
    + unfold Db.touch. simpl. rewrite Hc', Hr', !sql_incr_int by lia.
      split; f_equal; lia.
Qed.

Lemma repeated_updates_count_witness :
  exists row',
    Db.users (foldr (Db.update_user_activity 42) (Bot.db Samples.some_world)
                [2001; 2002; 2003]%Z) !! 42%Z = Some row'
    /\ Db.cards_drawn row' = Db.SqlInt (0 + Z.of_nat 3)
    /\ Db.readings_count row' = Db.SqlInt (0 + Z.of_nat 3).
Proof.
  apply (repeated_updates_count (Bot.db Samples.some_world) 42 [2001; 2002; 2003]%Z
           (Db.mkUserRow None (Some (u "Анна")) None None false 1000 (Some 1000%Z)
              (Db.SqlInt 0) (Db.SqlInt 0)) 0 0).
  - vm_compute. reflexivity.
  - reflexivity.
  - reflexivity.
  - vm_compute. discriminate.
  - vm_compute. discriminate.
Defined.

(** X11.  The ids of the stored readings stay pairwise distinct and at most
    the [AUTOINCREMENT] counter: this holds in a new database and after
    every [save_reading], and the id that [save_reading] returns is the id
    of no reading stored before. *)
Theorem ids_fresh_invariant :
  Invariants.ids_fresh Db.init_db
  /\ forall d user_id spread_type cards now,
       Invariants.ids_fresh d ->
       Invariants.ids_fresh (Db.save_reading user_id spread_type cards now d).2
       /\ forall rowid,
            (Db.save_reading user_id spread_type cards now d).1 = Ok rowid ->
            rowid ∉ Db.id <$> Db.readings d.
Proof.
  unfold Invariants.ids_fresh. split.
  - simpl. split; constructor.
  - intros d user_id spread_type cards now [Hnd Hle].
    assert (Hnew : (Db.last_id d + 1)%Z ∉ Db.id <$> Db.readings d).
    { intros (r & Hid & Hin)%list_elem_of_fmap.
      rewrite Forall_forall in Hle. specialize (Hle r Hin). lia. }
    unfold Db.save_reading. destruct (Db.json_dumps cards) as [text|e]; simpl.
    + split.
      * split.
        -- rewrite fmap_app. apply NoDup_app. split; [done|]. split.
           ++ intros x Hx ->%list_elem_of_singleton. done.
           ++ simpl. apply NoDup_singleton.
        -- apply Forall_app. split.
           ++ eapply Forall_impl; [exact Hle|]. simpl. intros; lia.
           ++ constructor; [simpl; lia|constructor].
      * by intros rowid [= <-].
    + split; [done|]. intros rowid [=].
Qed.

(** * Further properties of the rendering *)

Section RenderingMore.
Import Bot.

Lemma zip_take_length {A B} (l : list A) (k : list B) :
  zip (take (length k) l) k = zip l k.
Proof.
  revert l. induction k as [|y k IH]; intros [|x l]; simpl; try done.
  by rewrite IH.
Qed.

(** The loop of the three-card layout, as a concatenation. *)
Lemma three_cards_loop (l : list (Deck.DrawnCard * pystr)) :
  forall (start : nat) (response : pystr),
    fold_left
      (fun response '(i, ((card, is_reversed), position)) =>
         let response :=
           response ++ u "*" ++ str_of_nat i ++ u ". " ++ position ++ u ":*" ++ nl in
         response ++ Deck.get_description card is_reversed ++ nl ++ nl)
      (enumerate start l) response
    = response
        ++ mjoin (imap (fun i (dp : Deck.DrawnCard * pystr) =>
                          Layout.entry (start + i) dp.2
                            (Deck.get_description dp.1.1 dp.1.2)) l).
Proof.
  induction l as [|[[card r] position] l IH]; intros start response.
  - simpl. by rewrite app_nil_r.
  - cbn [enumerate fold_left imap mjoin list_join fst snd]. rewrite IH.
    unfold Layout.entry. rewrite Nat.add_0_r, <- !app_assoc. do 11 f_equal.
    apply imap_ext. intros i dp _. unfold compose.
    by replace (S start + i) with (start + S i) by lia.
Qed.

Lemma format_spread_response_raises_daily (spread_info : SpreadInfo) (user_name : pystr) :
  si_type spread_info = u "daily" ->
  format_spread_response spread_info [] user_name = Raise IndexError.
Proof. intros Hd. unfold format_spread_response. by rewrite decide_True. Qed.

End RenderingMore.

(** X12.  The rendering raises only for a spread of type ['daily'] and an
    empty list of drawn cards, and then it raises [IndexError]; every other
    input gives a text. *)
Theorem format_spread_response_raises (spread_info : Bot.SpreadInfo)
    (cards_data : list Deck.DrawnCard) (user_name : pystr) (e : Exn) :
  Bot.format_spread_response spread_info cards_data user_name = Raise e
  <-> Bot.si_type spread_info = u "daily" /\ cards_data = [] /\ e = IndexError.
Proof.
  unfold Bot.format_spread_response. split.
  - destruct (decide (Bot.si_type spread_info = u "daily")) as [Hd|Hd].
    + destruct cards_data as [|[card r] rest]; [|discriminate].
      by intros [= <-].
    + destruct (decide (Bot.si_type spread_info = u "three_cards")); discriminate.
  - intros (Hd & -> & ->). by rewrite decide_True.
Qed.

(** X13.  For a spread of type ['daily'] the text shows the first drawn card
    in full and nothing of the other drawn cards, of the description or of
    the position labels of the spread. *)
Theorem daily_shows_first_card (spread_info : Bot.SpreadInfo) (d : Deck.DrawnCard)
    (rest : list Deck.DrawnCard) (user_name : pystr) :
  Bot.si_type spread_info = u "daily" ->
  Bot.format_spread_response spread_info (d :: rest) user_name
  = Ok (u "✨ *" ++ Bot.si_name spread_info ++ u " для " ++ user_name ++ u "* ✨"
          ++ Bot.nl ++ Bot.nl
          ++ Deck.get_description d.1 d.2
          ++ Bot.nl ++ Bot.nl ++ u "🌅 *Совет на день:* Прислушайтесь к интуиции!").
Proof.
  intros Hd. unfold Bot.format_spread_response. rewrite decide_True by done.
  destruct d as [card r]. cbn [fst snd]. by rewrite <- !app_assoc.
Qed.

Lemma daily_shows_first_card_witness :
  Bot.format_spread_response MoreSamples.daily_info
    ((Samples.the_fool, true) :: [(Samples.the_fool, false)]) (u "Анна")
  = Ok (u "✨ *" ++ Bot.si_name MoreSamples.daily_info ++ u " для " ++ u "Анна" ++ u "* ✨"
          ++ Bot.nl ++ Bot.nl
          ++ Deck.get_description (Samples.the_fool, true).1 (Samples.the_fool, true).2
          ++ Bot.nl ++ Bot.nl ++ u "🌅 *Совет на день:* Прислушайтесь к интуиции!").
Proof.
  apply (daily_shows_first_card MoreSamples.daily_info (Samples.the_fool, true)
           [(Samples.the_fool, false)] (u "Анна")).
  reflexivity.
Defined.

(** X14.  For a spread of type ['three_cards'] the text lists the drawn cards
    paired in order with the labels of the spread (the labels "Прошлое",
    "Настоящее", "Будущее" when the spread has none), one entry per pair:
    drawn cards beyond the number of labels are not listed, no label is
    synthesized for them. *)
Theorem three_cards_layout (spread_info : Bot.SpreadInfo)
    (cards_data : list Deck.DrawnCard) (user_name : pystr) :
  Bot.si_type spread_info = u "three_cards" ->
  let positions :=
    default [u "Прошлое"; u "Настоящее"; u "Будущее"] (Bot.si_positions spread_info) in
  Bot.format_spread_response spread_info cards_data user_name
  = Ok (Layout.heading spread_info user_name
          ++ mjoin (imap (fun i (dp : Deck.DrawnCard * pystr) =>
                            Layout.entry (S i) dp.2 (Deck.get_description dp.1.1 dp.1.2))
                         (zip cards_data positions)))
  /\ Bot.format_spread_response spread_info cards_data user_name
     = Bot.format_spread_response spread_info (take (length positions) cards_data) user_name.
Proof.
  intros Ht positions.
  assert (Hfmt : forall cards,
             Bot.format_spread_response spread_info cards user_name
             = Ok (Layout.heading spread_info user_name
                     ++ mjoin (imap (fun i (dp : Deck.DrawnCard * pystr) =>
                                       Layout.entry (S i) dp.2
                                         (Deck.get_description dp.1.1 dp.1.2))
                                    (zip cards positions)))).
  { intros cards. unfold Bot.format_spread_response. rewrite Ht.
    rewrite (decide_False (P := _ = u "daily")) by apply daily_is_not_three_cards.
    rewrite (decide_True (P := _ = u "three_cards")) by done.
    fold positions. rewrite three_cards_loop. unfold Layout.heading.
    by rewrite <- !app_assoc. }
  split; [apply Hfmt|]. by rewrite !Hfmt, zip_take_length.
Qed.

Lemma three_cards_layout_witness :
  let positions :=
    default [u "Прошлое"; u "Настоящее"; u "Будущее"]
      (Bot.si_positions Samples.short_three_info) in
  Bot.format_spread_response Samples.short_three_info
    [(Samples.the_fool, false); (Samples.the_fool, true)] (u "Анна")
  = Ok (Layout.heading Samples.short_three_info (u "Анна")
          ++ mjoin (imap (fun i (dp : Deck.DrawnCard * pystr) =>
                            Layout.entry (S i) dp.2 (Deck.get_description dp.1.1 dp.1.2))
                         (zip [(Samples.the_fool, false); (Samples.the_fool, true)] positions)))
  /\ Bot.format_spread_response Samples.short_three_info
       [(Samples.the_fool, false); (Samples.the_fool, true)] (u "Анна")
     = Bot.format_spread_response Samples.short_three_info
         (take (length positions) [(Samples.the_fool, false); (Samples.the_fool, true)])
         (u "Анна").
Proof.
  apply (three_cards_layout Samples.short_three_info
           [(Samples.the_fool, false); (Samples.the_fool, true)] (u "Анна")).
  reflexivity.
Defined.

(** * Further properties of the handlers *)

Section HandlerMore.
Import Bot.

(** The handler after the lookup, by the outcome of the draw. *)
Lemma handle_quick_spread_unfold (self : TarotBot) (message : Message)
    (spread_type : pystr) (info : SpreadInfo) (w : World) :
  get_spread_info (spreads self) spread_type = Some info ->
  handle_quick_spread self message spread_type w
  = let w0 := emit (DrawCards (si_cards info)) w in
    match Deck.draw_cards (deck self) (si_cards info) (rng w) with
    | (Raise e, g) => (Raise e, mkWorld (db w0) g (now w0) (trace w0))
    | (Ok cards_data, g) =>
        let w1 := mkWorld (db w0) g (now w0) (trace w0) in
        match format_spread_response info cards_data
                (Db.u_first_name (from_user message)) with
        | Raise e => (Raise e, w1)
        | Ok response =>
            bind (call_save_reading (Db.u_id (from_user message)) spread_type cards_data)
              (fun _ =>
                 bind (call_update_user_activity (Db.u_id (from_user message)))
                   (fun _ => send_message (chat_id message) response)) w1
        end
    end.
Proof.
  intros Hinfo. unfold handle_quick_spread, resolve. rewrite Hinfo.
  unfold bind at 1 2, call_draw_cards, ret. cbn [emit rng db now trace].
  destruct (Deck.draw_cards (deck self) (si_cards info) (rng w)) as [[cards_data|e] g];
    [|reflexivity].
  unfold bind at 1, lift.
  by destruct (format_spread_response _ _ _).
Qed.

(** What every run of the handler leaves of the database. *)
Lemma handle_quick_spread_db (self : TarotBot) (message : Message)
    (spread_type : pystr) (w w' : World) (r : Res unit) :
  handle_quick_spread self message spread_type w = (r, w') ->
  dom (Db.users (db w')) = dom (Db.users (db w))
  /\ Db.readings (db w) `prefix_of` Db.readings (db w')
  /\ (forall other, other <> Db.u_id (from_user message) ->
        Db.users (db w') !! other = Db.users (db w) !! other).
Proof.
  intros Hrun.
  destruct (get_spread_info (spreads self) spread_type) as [info|] eqn:Hinfo.
  - rewrite (handle_quick_spread_unfold _ _ _ info _ Hinfo) in Hrun.
    cbn zeta in Hrun.
    destruct (Deck.draw_cards (deck self) (si_cards info) (rng w)) as [[cards_data|e] g].
    + destruct (format_spread_response _ _ _) as [response|e].
      * unfold bind, call_save_reading, call_update_user_activity, send_message,
          Db.save_reading, Db.json_dumps in Hrun.
        destruct cards_data as [|d rest]; injection Hrun as <- <-; simpl.
        -- split; [apply dom_alter_L|]. split; [by apply prefix_app_r|].
           intros other Hne. by rewrite lookup_alter_ne.
        -- done.
      * by injection Hrun as <- <-.
    + by injection Hrun as <- <-.
  - revert Hrun. unfold handle_quick_spread, resolve. rewrite Hinfo.
    unfold bind, ret, send_message. by intros [= <- <-].
Qed.

End HandlerMore.

(** X15.  When the draw raises, the handler ends with the same exception right
    after the draw: nothing is stored, the activity is not updated and no
    message is sent to the user. *)
Theorem handle_quick_spread_draw_raises (self : Bot.TarotBot) (message : Bot.Message)
    (spread_type : pystr) (info : Bot.SpreadInfo) (w : Bot.World) (e : Exn)
    (g : Deck.Rng) :
  Bot.get_spread_info (Bot.spreads self) spread_type = Some info ->
  Deck.draw_cards (Bot.deck self) (Bot.si_cards info) (Bot.rng w) = (Raise e, g) ->
  Bot.handle_quick_spread self message spread_type w
  = (Raise e,
     Bot.mkWorld (Bot.db w) g (Bot.now w)
       (Bot.trace w ++ [Bot.DrawCards (Bot.si_cards info)])).
Proof.
  intros Hinfo Hdraw. rewrite (handle_quick_spread_unfold _ _ _ info _ Hinfo).
  by rewrite Hdraw.
Qed.

Lemma handle_quick_spread_draw_raises_witness :
  Bot.handle_quick_spread MoreSamples.other_bot Samples.some_message (u "work_spread")
    Samples.some_world
  = (Raise InsufficientCardsError,
     Bot.mkWorld (Bot.db Samples.some_world) Samples.some_rng (Bot.now Samples.some_world)
       (Bot.trace Samples.some_world
          ++ [Bot.DrawCards (Bot.si_cards MoreSamples.ten_cards_info)])).
Proof.
  apply (handle_quick_spread_draw_raises MoreSamples.other_bot Samples.some_message
           (u "work_spread") MoreSamples.ten_cards_info Samples.some_world
           InsufficientCardsError Samples.some_rng).
  - vm_compute. reflexivity.
  - vm_compute. reflexivity.
Defined.

(** X16.  When the draw returns at least one card, the handler ends with
    [TypeError] in [save_reading]: [json.dumps] cannot encode a [TarotCard].
    The database is as before, the activity is not updated and the reading
    is not sent to the user. *)
Theorem handle_quick_spread_cannot_store (self : Bot.TarotBot) (message : Bot.Message)
    (spread_type : pystr) (info : Bot.SpreadInfo) (w : Bot.World)
    (d : Deck.DrawnCard) (rest : list Deck.DrawnCard) (g : Deck.Rng) :
  Bot.get_spread_info (Bot.spreads self) spread_type = Some info ->
  Deck.draw_cards (Bot.deck self) (Bot.si_cards info) (Bot.rng w) = (Ok (d :: rest), g) ->
  Bot.handle_quick_spread self message spread_type w
  = (Raise TypeError,
     Bot.mkWorld (Bot.db w) g (Bot.now w)
       (Bot.trace w ++ [Bot.DrawCards (Bot.si_cards info);
                        Bot.SaveReading (Db.u_id (Bot.from_user message)) spread_type
                          (d :: rest)])).
Proof.
  intros Hinfo Hdraw. rewrite (handle_quick_spread_unfold _ _ _ info _ Hinfo).
  rewrite Hdraw. cbn zeta.
  destruct (format_spread_response_Ok info (d :: rest)
              (Db.u_first_name (Bot.from_user message))) as [response ->]; [done|].
  unfold Bot.bind, Bot.call_save_reading, Db.save_reading, Db.json_dumps. simpl.
  by rewrite <- app_assoc.
Qed.

Lemma handle_quick_spread_cannot_store_witness :
  exists d rest g,
    Bot.handle_quick_spread MoreSamples.other_bot Samples.some_message (u "daily")
      Samples.some_world
    = (Raise TypeError,
       Bot.mkWorld (Bot.db Samples.some_world) g (Bot.now Samples.some_world)
         (Bot.trace Samples.some_world
            ++ [Bot.DrawCards (Bot.si_cards MoreSamples.daily_info);
                Bot.SaveReading (Db.u_id (Bot.from_user Samples.some_message)) (u "daily")
                  (d :: rest)])).
Proof.
  eexists _, _, _.
  apply (handle_quick_spread_cannot_store MoreSamples.other_bot Samples.some_message
           (u "daily") MoreSamples.daily_info Samples.some_world).
  - vm_compute. reflexivity.
  - vm_compute. reflexivity.
Defined.

(** X17.  When the draw returns no card for a spread of type ['daily'], the
    handler ends with [IndexError] in the rendering, before anything is
    stored or sent. *)
Theorem handle_quick_spread_daily_without_card (self : Bot.TarotBot)
    (message : Bot.Message) (spread_type : pystr) (info : Bot.SpreadInfo)
    (w : Bot.World) (g : Deck.Rng) :
  Bot.get_spread_info (Bot.spreads self) spread_type = Some info ->
  Bot.si_type info = u "daily" ->
  Deck.draw_cards (Bot.deck self) (Bot.si_cards info) (Bot.rng w) = (Ok [], g) ->
  Bot.handle_quick_spread self message spread_type w
  = (Raise IndexError,
     Bot.mkWorld (Bot.db w) g (Bot.now w)
       (Bot.trace w ++ [Bot.DrawCards (Bot.si_cards info)])).
Proof.
  intros Hinfo Hd Hdraw. rewrite (handle_quick_spread_unfold _ _ _ info _ Hinfo).
  rewrite Hdraw. cbn zeta.
  assert (Hfmt : Bot.format_spread_response info [] (Db.u_first_name (Bot.from_user message))
                 = Raise IndexError)
    by (by apply format_spread_response_raises_daily).
  by rewrite Hfmt.
Qed.

Lemma handle_quick_spread_daily_without_card_witness :
  Bot.handle_quick_spread MoreSamples.other_bot Samples.some_message (u "quick_card")
    Samples.some_world
  = (Raise IndexError,
     Bot.mkWorld (Bot.db Samples.some_world) Samples.some_rng (Bot.now Samples.some_world)
       (Bot.trace Samples.some_world
          ++ [Bot.DrawCards (Bot.si_cards MoreSamples.no_card_daily_info)])).
Proof.
  apply (handle_quick_spread_daily_without_card MoreSamples.other_bot Samples.some_message
           (u "quick_card") MoreSamples.no_card_daily_info Samples.some_world
           Samples.some_rng).
  - vm_compute. reflexivity.
  - reflexivity.
  - vm_compute. reflexivity.
Defined.



(** X19.  Whatever its outcome, the handler of a spread creates and removes
    no row of [users], leaves the rows of all other users as they are, and
    removes or changes no stored reading. *)
Theorem handle_quick_spread_keeps_users (self : Bot.TarotBot) (message : Bot.Message)
    (spread_type : pystr) (w w' : Bot.World) (r : Res unit) :
  Bot.handle_quick_spread self message spread_type w = (r, w') ->
  dom (Db.users (Bot.db w')) = dom (Db.users (Bot.db w))
  /\ Db.readings (Bot.db w) `prefix_of` Db.readings (Bot.db w')
  /\ (forall other, other <> Db.u_id (Bot.from_user message) ->
        Db.users (Bot.db w') !! other = Db.users (Bot.db w) !! other).
Proof. apply handle_quick_spread_db. Qed.

Lemma handle_quick_spread_keeps_users_witness :
  let run :=
    Bot.handle_quick_spread MoreSamples.other_bot MoreSamples.new_message (u "love_spread")
      Samples.some_world in
  dom (Db.users (Bot.db run.2)) = dom (Db.users (Bot.db Samples.some_world))
  /\ Db.readings (Bot.db Samples.some_world) `prefix_of` Db.readings (Bot.db run.2)
  /\ (forall other, other <> Db.u_id (Bot.from_user MoreSamples.new_message) ->
        Db.users (Bot.db run.2) !! other = Db.users (Bot.db Samples.some_world) !! other).
Proof.
  intros run.
  apply (handle_quick_spread_keeps_users MoreSamples.other_bot MoreSamples.new_message
           (u "love_spread") Samples.some_world run.2 run.1).
  apply surjective_pairing.
Defined.

(** [/start] of a user whose parameters bind. *)
Lemma handle_start_run (message : Bot.Message) (chat_type : pystr)
    (current_timestamp : Z) (w : Bot.World) :
  Db.bindable_int (Db.u_id (Bot.from_user message)) = true ->
  Db.bindable_texts (Bot.from_user message) = true ->
  exists d',
    Db.add_user (Bot.from_user message) (Bot.now w) current_timestamp (Bot.db w) = (Ok tt, d')
    /\ Handlers.handle_start message chat_type current_timestamp w
       = (Ok tt,
          Bot.mkWorld d' (Bot.rng w) (Bot.now w)
            (Bot.trace w
               ++ [Bot.SendMessage (Bot.chat_id message)
                     (Handlers.get_welcome_text (Db.u_first_name (Bot.from_user message))
                        chat_type)]))
    /\ (forall row,
          Db.users (Bot.db w) !! Db.u_id (Bot.from_user message) = Some row ->
          d' = Bot.db w)
    /\ (Db.users (Bot.db w) !! Db.u_id (Bot.from_user message) = None ->
        exists row,
          Db.get_user_stats (Db.u_id (Bot.from_user message)) d' = Some row
          /\ Db.cards_drawn row = Db.SqlInt 0
          /\ Db.readings_count row = Db.SqlInt 0
          /\ Db.created_at row = current_timestamp
          /\ Db.last_activity row = Some (Bot.now w)).
Proof.
  intros Hid Htexts. unfold Handlers.handle_start, Db.add_user, Db.get_user_stats.
  rewrite Hid, Htexts. cbn [negb].
  destruct (Db.users (Bot.db w) !! Db.u_id (Bot.from_user message)) as [row|] eqn:Hrow.
  - exists (Bot.db w). split; [done|]. split; [done|]. split; [done|]. done.
  - eexists. split; [reflexivity|]. split; [reflexivity|]. split; [done|].
    intros _. cbn [Db.users]. rewrite lookup_insert_eq.
    eexists. split; [reflexivity|]. done.
Qed.

(** X20.  [/start] of a user whose id is a signed 64-bit integer and whose
    texts encode leaves the user with a row of [users] and sends the welcome
    text, and nothing else: a user who already has a row keeps it with its
    counters (the database does not change), a new user starts with both
    counters at 0.  For an id outside the signed 64-bit integers the handler
    ends with [OverflowError]: nothing is stored and nothing is sent. *)
Theorem handle_start_registers (message : Bot.Message) (chat_type : pystr)
    (current_timestamp : Z) (w : Bot.World) :
  let user := Bot.from_user message in
  (Db.bindable_int (Db.u_id user) = true ->
   Db.bindable_texts user = true ->
   exists w',
     Handlers.handle_start message chat_type current_timestamp w = (Ok tt, w')
     /\ Bot.trace w' =
        Bot.trace w ++ [Bot.SendMessage (Bot.chat_id message)
                          (Handlers.get_welcome_text (Db.u_first_name user) chat_type)]
     /\ (forall row, Db.users (Bot.db w) !! Db.u_id user = Some row -> Bot.db w' = Bot.db w)
     /\ (Db.users (Bot.db w) !! Db.u_id user = None ->
         exists row,
           Db.get_user_stats (Db.u_id user) (Bot.db w') = Some row
           /\ Db.cards_drawn row = Db.SqlInt 0
           /\ Db.readings_count row = Db.SqlInt 0
           /\ Db.created_at row = current_timestamp
           /\ Db.last_activity row = Some (Bot.now w)))
  /\ (Db.bindable_int (Db.u_id user) = false ->
      Handlers.handle_start message chat_type current_timestamp w = (Raise OverflowError, w)).
Proof.
  intros user. split.
  - intros Hid Htexts.
    destruct (handle_start_run message chat_type current_timestamp w Hid Htexts)
      as (d' & _ & Hrun & Hold & Hnew).
    eexists. split; [exact Hrun|]. cbn [Bot.trace Bot.db]. split; [done|]. split; done.
  - intros Hid. unfold Handlers.handle_start, Db.add_user. fold user. rewrite Hid.
    cbn [negb]. by destruct w.
Qed.

Lemma handle_start_registers_witness :
  (exists w',
     Handlers.handle_start MoreSamples.new_message (u "private") 2990 Samples.some_world
     = (Ok tt, w')
     /\ Bot.trace w' =
        Bot.trace Samples.some_world
          ++ [Bot.SendMessage (Bot.chat_id MoreSamples.new_message)
                (Handlers.get_welcome_text (Db.u_first_name MoreSamples.new_user)
                   (u "private"))]
     /\ (forall row,
           Db.users (Bot.db Samples.some_world) !! Db.u_id MoreSamples.new_user = Some row ->
           Bot.db w' = Bot.db Samples.some_world)
     /\ (Db.users (Bot.db Samples.some_world) !! Db.u_id MoreSamples.new_user = None ->
         exists row,
           Db.get_user_stats (Db.u_id MoreSamples.new_user) (Bot.db w') = Some row
           /\ Db.cards_drawn row = Db.SqlInt 0
           /\ Db.readings_count row = Db.SqlInt 0
           /\ Db.created_at row = 2990%Z
           /\ Db.last_activity row = Some (Bot.now Samples.some_world)))
  /\ Handlers.handle_start MoreSamples.far_message (u "private") 2990 Samples.some_world
     = (Raise OverflowError, Samples.some_world).
Proof.
  split.
  - apply (handle_start_registers MoreSamples.new_message (u "private") 2990
             Samples.some_world); vm_compute; reflexivity.
  - apply (handle_start_registers MoreSamples.far_message (u "private") 2990
             Samples.some_world).
    vm_compute. reflexivity.
Defined.



(** X22.  For a new user whose id is a signed 64-bit integer and whose texts
    encode, [/start] followed by [/stats] sends the welcome text and then the
    statistics with both counters shown as 0 and the first 10 characters of
    the text of [created_at], the time of the database at the [/start];
    [/stats] does not change the database. *)
Theorem stats_after_start (timestamp_text : Z -> pystr) (real_text : pystr)
    (message : Bot.Message) (chat_type : pystr) (current_timestamp : Z) (w : Bot.World) :
  Db.users (Bot.db w) !! Db.u_id (Bot.from_user message) = None ->
  Db.bindable_int (Db.u_id (Bot.from_user message)) = true ->
  Db.bindable_texts (Bot.from_user message) = true ->
  exists w1 w2,
    Handlers.handle_start message chat_type current_timestamp w = (Ok tt, w1)
    /\ Handlers.handle_stats timestamp_text real_text message w1 = (Ok tt, w2)
    /\ Bot.db w2 = Bot.db w1
    /\ Bot.trace w2 =
       Bot.trace w
         ++ [Bot.SendMessage (Bot.chat_id message)
               (Handlers.get_welcome_text (Db.u_first_name (Bot.from_user message)) chat_type);
             Bot.SendMessage (Bot.chat_id message)
               (u "📊 *Статистика*" ++ Bot.nl ++ Bot.nl
                  ++ u "• Карт вытянуто: " ++ u "0" ++ Bot.nl
                  ++ u "• Раскладов: " ++ u "0" ++ Bot.nl
                  ++ u "• С вами с: " ++ slice_to (timestamp_text current_timestamp) 10)].
Proof.
  intros Hnone Hid Htexts.
  destruct (handle_start_run message chat_type current_timestamp w Hid Htexts)
    as (d' & _ & Hrun & _ & Hnew).
  destruct (Hnew Hnone) as (row & Hrow & Hc & Hr & Ht & _).
  eexists _, _. split; [exact Hrun|].
  unfold Handlers.handle_stats, Bot.send_message, Bot.emit.
  cbn [Bot.db Bot.trace Bot.rng Bot.now].
  rewrite Hrow, Hc, Hr, Ht.
  split; [reflexivity|]. cbn [Bot.db Bot.trace]. split; [reflexivity|].
  by rewrite <- app_assoc.
Qed.

Lemma stats_after_start_witness :
  exists w1 w2,
    Handlers.handle_start MoreSamples.new_message (u "private") 2990 Samples.some_world
    = (Ok tt, w1)
    /\ Handlers.handle_stats (fun _ => u "2024-01-01 10:00:00") (u "1e+19")
         MoreSamples.new_message w1 = (Ok tt, w2)
    /\ Bot.db w2 = Bot.db w1
    /\ Bot.trace w2 =
       Bot.trace Samples.some_world
         ++ [Bot.SendMessage (Bot.chat_id MoreSamples.new_message)
               (Handlers.get_welcome_text
                  (Db.u_first_name (Bot.from_user MoreSamples.new_message)) (u "private"));
             Bot.SendMessage (Bot.chat_id MoreSamples.new_message)
               (u "📊 *Статистика*" ++ Bot.nl ++ Bot.nl
                  ++ u "• Карт вытянуто: " ++ u "0" ++ Bot.nl
                  ++ u "• Раскладов: " ++ u "0" ++ Bot.nl
                  ++ u "• С вами с: "
                  ++ slice_to ((fun _ => u "2024-01-01 10:00:00") 2990%Z) 10)].
Proof.
  apply (stats_after_start (fun _ => u "2024-01-01 10:00:00") (u "1e+19")
           MoreSamples.new_message (u "private") 2990 Samples.some_world);
    vm_compute; reflexivity.
Defined.
